(** * dify-patcher: MCP schema extraction and custom-node generation

    A shallow embedding of [generator/schema_extractor.py] and
    [generator/node_generator.py], and the properties of the schema entity,
    the identifier derivation, the type mapping, the transport variants and
    the bundle generator that the specification states.

    Conventions of the embedding.
    - Python text ([str]) is a Rocq [string].  The case functions and the
      character classes below are the ASCII ones; a character above 127 is
      left alone by [lower]/[upper] and belongs to no class.
    - A value that came out of [json.load] (or that is about to go into
      [json.dump]) is a [json] tree; a [dict] keeps its insertion order and
      is an association list.
    - A Python exception is a value of [exn]; code that may raise returns
      [result A].
    - The file system is a finite map from paths to file contents. *)

From Stdlib Require Import String Ascii List ZArith NArith Lia Bool.
From Stdlib Require Import DecimalString.
From stdpp Require Import gmap strings.
Import ListNotations.
Open Scope list_scope.
Open Scope string_scope.

(** ** Characters *)

Module Char.

Definition code (c : ascii) : N := N_of_ascii c.

Definition between (lo hi : N) (c : ascii) : bool :=
  (lo <=? code c)%N && (code c <=? hi)%N.

Definition is_upper (c : ascii) : bool := between 65 90 c.
Definition is_lower (c : ascii) : bool := between 97 122 c.
Definition is_digit (c : ascii) : bool := between 48 57 c.

(** [str.isspace] on one ASCII character: TAB, LF, VT, FF, CR, the four
    separators FS, GS, RS, US, and the space.  The [\s] class of [re] on a
    [str] pattern is the same set. *)
Definition is_space (c : ascii) : bool :=
  between 9 13 c || between 28 31 c || (code c =? 32)%N.

Definition lower (c : ascii) : ascii :=
  if is_upper c then ascii_of_N (code c + 32) else c.

Definition upper (c : ascii) : ascii :=
  if is_lower c then ascii_of_N (code c - 32) else c.

Definition hyphen : ascii := "-"%char.
Definition underscore : ascii := "_"%char.
Definition quote : ascii := "'"%char.
Definition dquote : ascii := ascii_of_N 34.
Definition backslash : ascii := ascii_of_N 92.
Definition newline : ascii := ascii_of_N 10.

Definition is_hyphen (c : ascii) : bool := Ascii.eqb c hyphen.

End Char.

(** ** Python text operations *)

Module Str.

Definition nonempty (s : string) : bool :=
  match s with EmptyString => false | String _ _ => true end.

Fixpoint map (f : ascii -> ascii) (s : string) : string :=
  match s with
  | EmptyString => EmptyString
  | String c s' => String (f c) (map f s')
  end.

(** [s.lower()] *)
Definition lower (s : string) : string := map Char.lower s.

(** [s.capitalize()]: the first character in upper case, the rest in lower
    case. *)
Definition capitalize (s : string) : string :=
  match s with
  | EmptyString => EmptyString
  | String c s' => String (Char.upper c) (lower s')
  end.

(** [s.startswith(p)] *)
Fixpoint startswith (p s : string) : bool :=
  match p, s with
  | EmptyString, _ => true
  | String a p', String b s' => Ascii.eqb a b && startswith p' s'
  | String _ _, EmptyString => false
  end.

(** [s[n:]] *)
Fixpoint drop (n : nat) (s : string) : string :=
  match n, s with
  | O, _ => s
  | S n', String _ s' => drop n' s'
  | S _, EmptyString => EmptyString
  end.

(** [p in s] for two texts: [p] occurs in [s]. *)
Fixpoint contains (p s : string) : bool :=
  startswith p s ||
  match s with
  | EmptyString => false
  | String _ s' => contains p s'
  end.

(** [s.endswith(p)] *)
Fixpoint endswith (p s : string) : bool :=
  String.eqb p s ||
  match s with
  | EmptyString => false
  | String _ s' => endswith p s'
  end.

(** [sep.join(parts)] *)
Fixpoint join (sep : string) (parts : list string) : string :=
  match parts with
  | [] => EmptyString
  | [x] => x
  | x :: rest => x ++ sep ++ join sep rest
  end.

(** [s.replace(old, new)] for a non-empty [old]: the occurrences of [old]
    are taken from the left and do not overlap.  [skip] counts the
    characters of a match that are still to be passed over. *)
Fixpoint replace_from (old new : string) (skip : nat) (s : string) : string :=
  match s with
  | EmptyString => EmptyString
  | String c s' =>
      match skip with
      | S k => replace_from old new k s'
      | O =>
          if startswith old s
          then new ++ replace_from old new (String.length old - 1) s'
          else String c (replace_from old new 0 s')
      end
  end.

(** The code only replaces non-empty texts; for an empty [old] the model
    returns [s]. *)
Definition replace (old new s : string) : string :=
  match old with
  | EmptyString => s
  | String _ _ => replace_from old new 0 s
  end.

(** [s.lstrip('-')], [s.rstrip('-')] and [s.strip('-')] for a predicate on
    characters. *)
Fixpoint lstrip (p : ascii -> bool) (s : string) : string :=
  match s with
  | EmptyString => EmptyString
  | String c s' => if p c then lstrip p s' else s
  end.

Fixpoint rstrip (p : ascii -> bool) (s : string) : string :=
  match s with
  | EmptyString => EmptyString
  | String c s' =>
      match rstrip p s' with
      | EmptyString => if p c then EmptyString else String c EmptyString
      | r => String c r
      end
  end.

Definition strip (p : ascii -> bool) (s : string) : string :=
  rstrip p (lstrip p s).

(** [re.split(r'[...]+', s)]: the pieces of [s] between the maximal runs of
    separator characters.  A separator at the start or at the end leaves an
    empty piece there, as [re.split] does.  [in_run] says that the previous
    character was a separator. *)
Fixpoint split_runs (sep : ascii -> bool) (in_run : bool) (s : string)
  : list string :=
  match s with
  | EmptyString => [EmptyString]
  | String c s' =>
      if sep c then
        if in_run then split_runs sep true s'
        else EmptyString :: split_runs sep true s'
      else
        match split_runs sep false s' with
        | w :: ws => String c w :: ws
        | [] => [String c EmptyString]
        end
  end.

Definition re_split (sep : ascii -> bool) (s : string) : list string :=
  split_runs sep false s.

(** The first piece of a split. *)
Definition head_of (l : list string) : string :=
  match l with w :: _ => w | [] => EmptyString end.

(** [s.split()]: the words of [s] between white space, none of them
    empty. *)
Definition split (s : string) : list string :=
  List.filter nonempty (re_split Char.is_space s).

(** [re.sub(r'-+', '-', s)] for a character class of one character: every
    maximal run of it becomes one occurrence. *)
Fixpoint squeeze (p : ascii -> bool) (s : string) : string :=
  match s with
  | EmptyString => EmptyString
  | String c s' =>
      if p c then
        match s' with
        | String d _ => if p d then squeeze p s' else String c (squeeze p s')
        | EmptyString => String c EmptyString
        end
      else String c (squeeze p s')
  end.

End Str.

(** ** Identifier derivation ([MCPToolSchema._generate_node_type] and
    [_generate_class_name]) *)

(** The class [[a-zA-Z0-9]] of the first [re.sub]. *)
Definition is_alnum (c : ascii) : bool :=
  Char.is_lower c || Char.is_upper c || Char.is_digit c.

(** The class [[_\-\s]] of the [re.split]. *)
Definition is_word_sep (c : ascii) : bool :=
  Ascii.eqb c Char.underscore || Ascii.eqb c Char.hyphen || Char.is_space c.

(** [re.sub(r'[^a-zA-Z0-9]', '-', s)] *)
Definition sub_non_alnum (s : string) : string :=
  Str.map (fun c => if is_alnum c then c else Char.hyphen) s.

Definition _generate_node_type (name : string) : string :=
  let safe_name := sub_non_alnum (Str.lower name) in
  let safe_name := Str.squeeze Char.is_hyphen safe_name in
  let safe_name := Str.strip Char.is_hyphen safe_name in
  "mcp-" ++ safe_name.

Definition _generate_class_name (name : string) : string :=
  let words := Str.re_split is_word_sep name in
  let class_name :=
    String.concat "" (List.map Str.capitalize (List.filter Str.nonempty words)) in
  "MCP" ++ class_name ++ "Node".

(** ** Exceptions and results *)

(** The exceptions the modelled code can raise.  The three of [httpx] stand
    for a failed connection, a response whose status is not a success
    ([raise_for_status]) and a body that is no JSON ([response.json()],
    [json.loads]). *)
Inductive exn : Type :=
| AttributeError
| TypeError
| KeyError (key : string)
| IndexError
| ValueError (msg : string)
| JSONDecodeError
| ConnectError
| HTTPStatusError
| FileNotFoundError.

Inductive result (A : Type) : Type :=
| Ok (a : A)
| Raise (e : exn).
Arguments Ok {A} a.
Arguments Raise {A} e.

Definition bind {A B : Type} (m : result A) (k : A -> result B) : result B :=
  match m with
  | Ok a => k a
  | Raise e => Raise e
  end.

Notation "'let*' x ':=' m 'in' k" := (bind m (fun x => k))
  (at level 10, x name, m at level 100, k at level 200).

Definition is_ok {A : Type} (m : result A) : bool :=
  match m with Ok _ => true | Raise _ => false end.

(** [[f(x) for x in xs]] when [f] may raise: the first exception ends the
    comprehension. *)
Fixpoint mapM {A B : Type} (f : A -> result B) (xs : list A)
  : result (list B) :=
  match xs with
  | [] => Ok []
  | x :: xs' => let* y := f x in let* ys := mapM f xs' in Ok (y :: ys)
  end.

(** ** JSON values as Python objects *)

(** What [json.load] returns: [None], [bool], [int], [float], [str], [list]
    and [dict] with text keys.  A [float] is held as the text [repr] gives
    for it.  A [dict] lists its items in insertion order. *)
#[warnings="-register-all"]
Inductive json : Type :=
| JNull
| JBool (b : bool)
| JInt (z : Z)
| JFloat (repr : string)
| JStr (s : string)
| JArr (items : list json)
| JObj (fields : list (string * json)).

Definition dict : Type := list (string * json).

(** The empty [dict] literal. *)
Definition empty_dict : json := JObj [].

Module Py.

(** Lookup of a key in a [dict]. *)
Fixpoint lookup (k : string) (d : dict) : option json :=
  match d with
  | [] => None
  | (k', v) :: d' => if String.eqb k k' then Some v else lookup k d'
  end.

(** [d[k] = v] on a [dict]: a key that is there keeps its place, a new one
    goes to the end. *)
Fixpoint setitem (k : string) (v : json) (d : dict) : dict :=
  match d with
  | [] => [(k, v)]
  | (k', v') :: d' =>
      if String.eqb k k' then (k, v) :: d' else (k', v') :: setitem k v d'
  end.

(** [x == 'text'] *)
Definition eq_str (x : json) (s : string) : bool :=
  match x with
  | JStr t => String.eqb t s
  | _ => false
  end.

(** [x.get(k, default)]: a method of [dict] only. *)
Definition get (x : json) (k : string) (default : json) : result json :=
  match x with
  | JObj d => Ok (match lookup k d with Some v => v | None => default end)
  | _ => Raise AttributeError
  end.

(** [x.get(k)] *)
Definition get_none (x : json) (k : string) : result json := get x k JNull.

(** [x[k]] for a text key [k]. *)
Definition getitem (x : json) (k : string) : result json :=
  match x with
  | JObj d =>
      match lookup k d with
      | Some v => Ok v
      | None => Raise (KeyError k)
      end
  | _ => Raise TypeError
  end.

(** [x[0]] *)
Definition first (x : json) : result json :=
  match x with
  | JArr (v :: _) => Ok v
  | JArr [] => Raise IndexError
  | JStr (String c _) => Ok (JStr (String c EmptyString))
  | JStr EmptyString => Raise IndexError
  | JObj _ => Raise (KeyError "0")
  | _ => Raise TypeError
  end.

(** ['text' in x] *)
Definition contains (k : string) (x : json) : result bool :=
  match x with
  | JObj d => Ok (match lookup k d with Some _ => true | None => false end)
  | JArr l => Ok (List.existsb (fun v => eq_str v k) l)
  | JStr s => Ok (Str.contains k s)
  | _ => Raise TypeError
  end.

Fixpoint chars (s : string) : list json :=
  match s with
  | EmptyString => []
  | String c s' => JStr (String c EmptyString) :: chars s'
  end.

(** [for v in x]: the elements of a [list], the characters of a [str], the
    keys of a [dict]. *)
Definition iter (x : json) : result (list json) :=
  match x with
  | JArr l => Ok l
  | JStr s => Ok (chars s)
  | JObj d => Ok (List.map (fun kv => JStr (fst kv)) d)
  | _ => Raise TypeError
  end.

(** [x.items()] and [x.keys()]: methods of [dict] only. *)
Definition items (x : json) : result dict :=
  match x with
  | JObj d => Ok d
  | _ => Raise AttributeError
  end.

Definition keys (x : json) : result (list string) :=
  let* d := items x in Ok (List.map fst d).

(** [bool(x)] *)
Definition truthy (x : json) : bool :=
  match x with
  | JNull => false
  | JBool b => b
  | JInt z => negb (Z.eqb z 0)
  | JFloat r => negb (String.eqb r "0.0" || String.eqb r "-0.0")
  | JStr s => Str.nonempty s
  | JArr l => match l with [] => false | _ => true end
  | JObj d => match d with [] => false | _ => true end
  end.

(** [x or y] *)
Definition or_else (x y : json) : json := if truthy x then x else y.

(** [str(n)] for an [int]. *)
Definition str_int (z : Z) : string := NilZero.string_of_int (Z.to_int z).

Definition hex_digit (n : N) : ascii :=
  if (n <? 10)%N then ascii_of_N (48 + n) else ascii_of_N (87 + n).

(** One character inside [repr] of a [str] that is quoted with [q]. *)
Definition repr_char (q : ascii) (c : ascii) : string :=
  let n := Char.code c in
  if Ascii.eqb c q || Ascii.eqb c Char.backslash
  then String Char.backslash (String c EmptyString)
  else if (n =? 9)%N then String Char.backslash "t"
  else if (n =? 10)%N then String Char.backslash "n"
  else if (n =? 13)%N then String Char.backslash "r"
  else if (n <? 32)%N || (n =? 127)%N
  then String Char.backslash
         (String "x" (String (hex_digit (n / 16))
                        (String (hex_digit (n mod 16)) EmptyString)))
  else String c EmptyString.

Fixpoint repr_chars (q : ascii) (s : string) : string :=
  match s with
  | EmptyString => EmptyString
  | String c s' => repr_char q c ++ repr_chars q s'
  end.

Fixpoint has_char (a : ascii) (s : string) : bool :=
  match s with
  | EmptyString => false
  | String c s' => Ascii.eqb a c || has_char a s'
  end.

(** [repr(s)] for a [str]: single quotes, unless the text has a single
    quote and no double quote. *)
Definition repr_str (s : string) : string :=
  let q :=
    if has_char Char.quote s && negb (has_char Char.dquote s)
    then Char.dquote else Char.quote in
  String q (repr_chars q s ++ String q EmptyString).

(** [repr(x)] *)
Fixpoint repr (x : json) : string :=
  match x with
  | JNull => "None"
  | JBool true => "True"
  | JBool false => "False"
  | JInt z => str_int z
  | JFloat r => r
  | JStr s => repr_str s
  | JArr l => "[" ++ Str.join ", " (List.map repr l) ++ "]"
  | JObj d =>
      "{" ++ Str.join ", "
               (List.map (fun kv => match kv with
                                    | (k, v) => repr_str k ++ ": " ++ repr v
                                    end) d) ++ "}"
  end.

(** [str(x)], which is what an f-string puts for [{x}]. *)
Definition str (x : json) : string :=
  match x with
  | JStr s => s
  | _ => repr x
  end.

End Py.

(** ** The schema entity ([MCPToolSchema]) *)

(** The five fields given to the constructor and the two derived ones.
    [name] is text: the constructor lowers it, which no other JSON value
    allows.  The other fields are kept as they arrive. *)
Record MCPToolSchema : Type := {
  name : string;
  description : json;
  input_schema : json;
  output_schema : json;
  annotations : json;
  node_type : string;
  class_name : string;
}.

(** The generated [__init__] followed by [__post_init__].  [name.lower()]
    raises [AttributeError] unless [name] is a [str]. *)
Definition MCPToolSchema_init
  (name_arg description_arg input_schema_arg output_schema_arg
     annotations_arg : json) : result MCPToolSchema :=
  match name_arg with
  | JStr n =>
      Ok {| name := n;
            description := description_arg;
            input_schema := input_schema_arg;
            output_schema := output_schema_arg;
            annotations := annotations_arg;
            node_type := _generate_node_type n;
            class_name := _generate_class_name n |}
  | _ => Raise AttributeError
  end.

(** The state of an instance right after construction. *)
Definition derived_ok (s : MCPToolSchema) : Prop :=
  node_type s = _generate_node_type (name s) /\
  class_name s = _generate_class_name (name s).

(** [self.input_schema.get('properties', {})] *)
Definition properties (self : MCPToolSchema) : result json :=
  Py.get (input_schema self) "properties" empty_dict.

(** [self.input_schema.get('required', [])] *)
Definition required_fields (self : MCPToolSchema) : result json :=
  Py.get (input_schema self) "required" (JArr []).

Section LookupWith.
Context {A : Type} (f : json -> A) (default : A) (k : string).

(** [f(d.get(k, x))] where [default] is [f(x)]: the value under [k] is a
    part of [d], which lets [f] be the function that is being defined. *)
Fixpoint lookup_with (d : dict) : A :=
  match d with
  | [] => default
  | (k', v) :: d' => if String.eqb k k' then f v else lookup_with d'
  end.
End LookupWith.

(** [' | '.join(f"'{v}'" for v in enum)] *)
Definition enum_union (enum : json) : result string :=
  let* vs := Py.iter enum in
  Ok (Str.join " | " (List.map (fun v => "'" ++ Py.str v ++ "'") vs)).

(** [get_typescript_type].  In the array case the element schema is
    [prop_schema.get('items', {})]; for the empty schema the function gives
    ['any'], which is the [default] handed to [lookup_with]
    (see [get_typescript_type_by_tag]). *)
Fixpoint get_typescript_type (prop_schema : json) : result string :=
  match prop_schema with
  | JObj d =>
      let json_type :=
        match Py.lookup "type" d with Some t => t | None => JStr "any" end in
      if Py.eq_str json_type "string" then
        match Py.lookup "enum" d with
        | Some enum => enum_union enum
        | None => Ok "string"
        end
      else if Py.eq_str json_type "number" || Py.eq_str json_type "integer"
      then Ok "number"
      else if Py.eq_str json_type "boolean" then Ok "boolean"
      else if Py.eq_str json_type "array" then
        let* item_type := lookup_with get_typescript_type (Ok "any") "items" d in
        Ok (item_type ++ "[]")
      else if Py.eq_str json_type "object" then Ok "Record<string, any>"
      else Ok "any"
  | _ => Raise AttributeError
  end.

(** [get_python_type], with the same treatment of the element schema. *)
Fixpoint get_python_type (prop_schema : json) : result string :=
  match prop_schema with
  | JObj d =>
      let json_type :=
        match Py.lookup "type" d with Some t => t | None => JStr "Any" end in
      if Py.eq_str json_type "string" then Ok "str"
      else if Py.eq_str json_type "number" then Ok "float"
      else if Py.eq_str json_type "integer" then Ok "int"
      else if Py.eq_str json_type "boolean" then Ok "bool"
      else if Py.eq_str json_type "array" then
        let* item_type := lookup_with get_python_type (Ok "Any") "items" d in
        Ok ("list[" ++ item_type ++ "]")
      else if Py.eq_str json_type "object" then Ok "dict[str, Any]"
      else Ok "Any"
  | _ => Raise AttributeError
  end.

Definition to_dict (self : MCPToolSchema) : json :=
  JObj [ ("name", JStr (name self));
         ("description", description self);
         ("input_schema", input_schema self);
         ("output_schema", output_schema self);
         ("annotations", annotations self);
         ("node_type", JStr (node_type self));
         ("class_name", JStr (class_name self)) ].

Definition from_dict (data : json) : result MCPToolSchema :=
  let* name_arg := Py.getitem data "name" in
  let* description_arg := Py.get_none data "description" in
  let* input_schema_arg := Py.get data "input_schema" empty_dict in
  let* output_schema_arg := Py.get_none data "output_schema" in
  let* annotations_arg := Py.get_none data "annotations" in
  MCPToolSchema_init name_arg description_arg input_schema_arg
    output_schema_arg annotations_arg.

(** ** [urllib.parse.urlparse]

    The library function [_extract_tools_standalone] calls, as far as the
    scheme, the network location and the path go: leading controls and
    spaces are stripped, TAB, CR and LF are removed, a scheme is split off
    at the first colon, a network location after a double slash, then the
    fragment, the query and (for the schemes that have them) the parameters
    of the last path segment.  A bracket without its partner in the network
    location raises [ValueError]; what stands between brackets is not
    looked at. *)

Module Urllib.

Record ParseResult : Type := {
  scheme : string;
  netloc : string;
  path : string;
}.

Fixpoint remove (p : ascii -> bool) (s : string) : string :=
  match s with
  | EmptyString => EmptyString
  | String c s' => if p c then remove p s' else String c (remove p s')
  end.

(** The part of [s] before the first character in the class [p]. *)
Fixpoint before (p : ascii -> bool) (s : string) : string :=
  match s with
  | EmptyString => EmptyString
  | String c s' => if p c then EmptyString else String c (before p s')
  end.

(** The part of [s] from the first character in the class [p] on. *)
Fixpoint from (p : ascii -> bool) (s : string) : string :=
  match s with
  | EmptyString => EmptyString
  | String c s' => if p c then s else from p s'
  end.

Fixpoint all (p : ascii -> bool) (s : string) : bool :=
  match s with
  | EmptyString => true
  | String c s' => p c && all p s'
  end.

Definition is_char (a : ascii) (c : ascii) : bool := Ascii.eqb a c.

Definition is_c0_or_space (c : ascii) : bool := (Char.code c <=? 32)%N.

Definition is_unsafe (c : ascii) : bool :=
  (Char.code c =? 9)%N || (Char.code c =? 13)%N || (Char.code c =? 10)%N.

Definition is_alpha (c : ascii) : bool := Char.is_lower c || Char.is_upper c.

Definition is_scheme_char (c : ascii) : bool :=
  is_alpha c || Char.is_digit c ||
  is_char "+" c || is_char "-" c || is_char "." c.

Definition is_netloc_end (c : ascii) : bool :=
  is_char "/" c || is_char "?" c || is_char "#" c.

Definition uses_params : list string :=
  [ ""; "ftp"; "hdl"; "prospero"; "http"; "imap"; "https"; "shttp"; "rtsp";
    "rtspu"; "sip"; "sips"; "mms"; "sftp"; "tel" ].

(** [(scheme, rest)]: the scheme is split off when the text before the
    first colon is not empty, starts with a letter and is made of scheme
    characters. *)
Definition split_scheme (url : string) : string * string :=
  let head := before (is_char ":") url in
  let tail := from (is_char ":") url in
  match head, tail with
  | String c _, String _ rest =>
      if is_alpha c && all is_scheme_char head
      then (Str.lower head, rest)
      else (EmptyString, url)
  | _, _ => (EmptyString, url)
  end.

(** [_splitparams]: the path without the parameters of its last segment. *)
Fixpoint split_params (url : string) : string :=
  match url with
  | EmptyString => EmptyString
  | String c url' =>
      if Py.has_char "/" url' then String c (split_params url')
      else before (is_char ";") url
  end.

Definition urlparse (url : string) : result ParseResult :=
  let url := Str.lstrip is_c0_or_space url in
  let url := remove is_unsafe url in
  let '(scheme, url) := split_scheme url in
  let '(netloc, url) :=
    if Str.startswith "//" url
    then (before is_netloc_end (Str.drop 2 url),
          from is_netloc_end (Str.drop 2 url))
    else (EmptyString, url) in
  if xorb (Py.has_char "[" netloc) (Py.has_char "]" netloc)
  then Raise (ValueError "Invalid IPv6 URL")
  else
    let url := before (is_char "#") url in
    let url := before (is_char "?") url in
    let url :=
      if List.existsb (String.eqb scheme) uses_params && Py.has_char ";" url
      then split_params url else url in
    Ok {| scheme := scheme; netloc := netloc; path := url |}.

End Urllib.

(** ** The file system

    A path is the text of a normalised [Path]; [dir / name] puts a slash
    between a directory and a relative name.  A file that [json.dump] wrote
    is held as the document it holds, which is what [json.load] gives back;
    a file written with [f.write] is held as its text.  Directories are
    implicit in the paths of the files, so [mkdir] changes nothing, and
    writing never fails. *)

Inductive file : Type :=
| Text (content : string)
| Json (document : json).

Definition joinpath (dir name_ : string) : string := dir ++ "/" ++ name_.

(** [with open(path, 'w') as f: f.write(content)] and
    [with open(path, 'w') as f: json.dump(document, f, indent=2)] *)
Definition write_text (path : string) (content : string)
  (fs : gmap string file) : gmap string file :=
  <[path := Text content]> fs.

Definition json_dump (path : string) (document : json)
  (fs : gmap string file) : gmap string file :=
  <[path := Json document]> fs.

(** [with open(path, 'r') as f: json.load(f)].  The model has no JSON
    parser: for a file held as text the answer is [JSONDecodeError], and
    nothing below is stated about that case. *)
Definition json_load (path : string) (fs : gmap string file) : result json :=
  match fs !! path with
  | Some (Json document) => Ok document
  | Some (Text _) => Raise JSONDecodeError
  | None => Raise FileNotFoundError
  end.

(** ** The schema transport ([MCPSchemaExtractor]) *)

Record MCPSchemaExtractor : Type := {
  server_url : string;
  headers : dict;
  timeout : json;
  _tools : list MCPToolSchema;
}.

(** [MCPSchemaExtractor(server_url, headers=None, timeout=30.0)] *)
Definition MCPSchemaExtractor_init (server_url_arg : string)
  (headers_arg : option dict) (timeout_arg : json) : MCPSchemaExtractor :=
  {| server_url := server_url_arg;
     headers := match headers_arg with Some h => h | None => [] end;
     timeout := timeout_arg;
     _tools := [] |}.

(** [self._tools = tools] *)
Definition set_tools (self : MCPSchemaExtractor) (tools : list MCPToolSchema)
  : MCPSchemaExtractor :=
  {| server_url := server_url self;
     headers := headers self;
     timeout := timeout self;
     _tools := tools |}.

(** What goes over the wire: [client.stream('GET', url, headers=...)] and
    [client.post(url, headers=..., json=...)], each of a client built with
    [timeout]. *)
Inductive Request : Type :=
| StreamGet (url : string) (hdrs : dict) (tmo : json)
| Post (url : json) (hdrs : dict) (tmo : json) (body : json).

(** What the code reads off a response: whether [raise_for_status] passes,
    the lines of [iter_lines()], and [response.json()]. *)
Record Response : Type := {
  is_success : bool;
  iter_lines : list string;
  json_body : result json;
}.

(** A computation that sends requests: the requests sent, in order, and
    the value or the exception it ends with. *)
Definition io (A : Type) : Type := list Request * result A.

Definition io_bind {A B : Type} (m : io A) (k : A -> io B) : io B :=
  match m with
  | (log, Ok a) => let '(log', r) := k a in ((log ++ log')%list, r)
  | (log, Raise e) => (log, Raise e)
  end.

Definition lift {A : Type} (r : result A) : io A := ([], r).

Notation "'do*' x ':=' m 'in' k" := (io_bind m (fun x => k))
  (at level 10, x name, m at level 100, k at level 200).

Definition raise_for_status (response : Response) : result unit :=
  if is_success response then Ok tt else Raise HTTPStatusError.

(** The body of the [tools/list] request. *)
Definition tools_list_body : json :=
  JObj [ ("jsonrpc", JStr "2.0"); ("id", JInt 1);
         ("method", JStr "tools/list"); ("params", JObj []) ].

(** [MCPToolSchema(name=tool['name'], description=tool.get('description'),
    ...)] for one record of the response. *)
Definition tool_of_record (tool : json) : result MCPToolSchema :=
  let* name_arg := Py.getitem tool "name" in
  let* description_arg := Py.get_none tool "description" in
  let* input_schema_arg := Py.get tool "inputSchema" empty_dict in
  let* output_schema_arg := Py.get_none tool "outputSchema" in
  let* annotations_arg := Py.get_none tool "annotations" in
  MCPToolSchema_init name_arg description_arg input_schema_arg
    output_schema_arg annotations_arg.

(** [result.get('result', {}).get('tools', [])] and the comprehension over
    it. *)
Definition tools_of_result (result_ : json) : result (list MCPToolSchema) :=
  let* inner := Py.get result_ "result" empty_dict in
  let* tools_data := Py.get inner "tools" (JArr []) in
  let* records := Py.iter tools_data in
  mapM tool_of_record records.

Inductive variant : Type := Direct | Handshake.

Section Transport.

(** The remote side, and [json.loads]. *)
Variable network : Request -> result Response.
Variable json_loads : string -> result json.

Definition send (rq : Request) : io Response := ([rq], network rq).

(** The [tools/list] call of both variants, against [url]. *)
Definition post_tools_list (self : MCPSchemaExtractor) (url : json)
  : io MCPSchemaExtractor :=
  do* response :=
    send (Post url
            (Py.setitem "Content-Type" (JStr "application/json")
               (headers self))
            (timeout self) tools_list_body) in
  do* _ := lift (raise_for_status response) in
  do* result_ := lift (json_body response) in
  do* tools := lift (tools_of_result result_) in
  lift (Ok (set_tools self tools)).

Definition _extract_via_http (self : MCPSchemaExtractor)
  : io MCPSchemaExtractor :=
  post_tools_list self (JStr (server_url self)).

(** The loop over [response.iter_lines()]: the value of [endpoint_url]
    when the loop is left, by [break] or at the end of the stream. *)
Fixpoint read_endpoint (lines : list string) : result json :=
  match lines with
  | [] => Ok JNull
  | line :: rest =>
      if Str.startswith "data: " line then
        let* data := json_loads (Str.drop 6 line) in
        let* found := Py.contains "endpoint" data in
        if found then Py.getitem data "endpoint"
        else read_endpoint rest
      else read_endpoint rest
  end.

Definition _extract_via_sse (self : MCPSchemaExtractor)
  : io MCPSchemaExtractor :=
  do* response :=
    send (StreamGet (server_url self)
            (Py.setitem "Accept" (JStr "text/event-stream") (headers self))
            (timeout self)) in
  do* _ := lift (raise_for_status response) in
  do* endpoint_url := lift (read_endpoint (iter_lines response)) in
  if negb (Py.truthy endpoint_url)
  then lift (Raise (ValueError "No endpoint URL received from SSE"))
  else post_tools_list self endpoint_url.

(** The test of [_extract_tools_standalone], after [urlparse]. *)
Definition select_variant (url : string) : result variant :=
  let* parsed := Urllib.urlparse url in
  if Str.contains "/sse" url || Str.endswith "/sse" (Urllib.path parsed)
  then Ok Handshake else Ok Direct.

Definition _extract_tools_standalone (self : MCPSchemaExtractor)
  : io MCPSchemaExtractor :=
  do* v := lift (select_variant (server_url self)) in
  match v with
  | Handshake => _extract_via_sse self
  | Direct => _extract_via_http self
  end.

Definition extract_tools (self : MCPSchemaExtractor)
  : io MCPSchemaExtractor :=
  _extract_tools_standalone self.

End Transport.

(** [MCPSchemaExtractor.from_json_file] *)
Definition from_json_file (file_path : string) (fs : gmap string file)
  : result (list MCPToolSchema) :=
  let* data := json_load file_path fs in
  let* tools_data :=
    match data with
    | JArr _ => Ok data
    | _ => Py.get data "tools" (JArr [])
    end in
  let* records := Py.iter tools_data in
  mapM from_dict records.

(** [MCPSchemaExtractor.save_schemas] *)
Definition save_schemas (self : MCPSchemaExtractor) (file_path : string)
  (fs : gmap string file) : gmap string file :=
  json_dump file_path (JArr (List.map to_dict (_tools self))) fs.

(** ** The bundle generator ([CustomNodeGenerator]) *)

Definition dq : string := String Char.dquote EmptyString.

Definition _format_name (name_ : string) : string :=
  let words := Str.split (Str.replace "-" " " (Str.replace "_" " " name_)) in
  Str.join " " (List.map Str.capitalize words).

Definition icon_map : list (string * string) :=
  [
    ("file", "📁");
    ("read", "📖");
    ("write", "📝");
    ("search", "🔍");
    ("list", "📋");
    ("delete", "🗑️");
    ("create", "➕");
    ("edit", "✏️");
    ("get", "📥");
    ("send", "📤");
    ("api", "🔌");
    ("http", "🌐");
    ("database", "🗃️");
    ("query", "❓");
    ("execute", "▶️");
    ("run", "🏃")
  ].

Definition default_icon : string := "🔧".

(** The loop of [_get_icon] over [icon_map.items()]. *)
Fixpoint first_icon (name_ : string) (table : list (string * string))
  : string :=
  match table with
  | [] => default_icon
  | (keyword, icon) :: rest =>
      if Str.contains keyword name_ then icon else first_icon name_ rest
  end.

Definition _get_icon (schema : MCPToolSchema) : string :=
  first_icon (Str.lower (name schema)) icon_map.

(** *** The texts of the templates

    Each definition below is one string literal or f-string of
    [node_generator.py], with its replacement fields as arguments. *)

(** One line of the input extraction. *)
Definition input_line (prop_name default : string) : string :=
  "        " ++ prop_name ++ " = self.get_input('" ++ prop_name ++ "', "
  ++ default ++ ")".

(** The guard appended to [validation_lines] for a required parameter. *)
Definition validation_block (prop_name params title : string) : string :=
  "
        if not "
  ++ prop_name
  ++ ":
            return NodeRunResult(
                status=WorkflowNodeExecutionStatus.FAILED,
                inputs={"
  ++ params
  ++ "},
                outputs={},
                error="
  ++ dq ++ title ++ " is required" ++ dq
  ++ "
            )".

(** The text [_generate_node_py] returns. *)
Definition node_py_template (title description_or_empty node_type_ class_name_ name_ description_or_none inputs_str validations_str params_dict : string) : string :=
  dq ++ dq ++ dq
  ++ "
"
  ++ title
  ++ " Node

Auto-generated from MCP tool schema.
"
  ++ description_or_empty
  ++ "
"
  ++ dq ++ dq ++ dq
  ++ "

from typing import Any

from core.dify_custom_nodes import BaseCustomNode, register_node
from core.workflow.enums import WorkflowNodeExecutionStatus
from core.workflow.node_events import NodeRunResult


@register_node('"
  ++ node_type_
  ++ "', version='1', author='MCP Node Generator')
class "
  ++ class_name_
  ++ "(BaseCustomNode):
    "
  ++ dq ++ dq ++ dq
  ++ "
    MCP Tool: "
  ++ name_
  ++ "

    "
  ++ description_or_none
  ++ "
    "
  ++ dq ++ dq ++ dq
  ++ "

    # MCP Tool name (server URL is provided via node input)
    MCP_TOOL_NAME = '"
  ++ name_
  ++ "'

    @classmethod
    def version(cls) -> str:
        return "
  ++ dq ++ "1" ++ dq
  ++ "

    def _run(self) -> NodeRunResult:
        "
  ++ dq ++ dq ++ dq ++ "Execute MCP tool invocation." ++ dq ++ dq ++ dq
  ++ "
        # Get MCP server URL from node input
        mcp_server_url = self.get_input('mcp_server_url', '')
        if not mcp_server_url:
            return NodeRunResult(
                status=WorkflowNodeExecutionStatus.FAILED,
                inputs={},
                outputs={},
                error="
  ++ dq ++ "MCP Server URL is required" ++ dq
  ++ "
            )

        # Extract inputs
"
  ++ inputs_str
  ++ "
"
  ++ validations_str
  ++ "

        # Build tool parameters
        tool_params = {"
  ++ params_dict
  ++ "}

        try:
            # Invoke MCP tool
            result = self._invoke_mcp_tool(mcp_server_url, tool_params)

            # Process result
            text_content = self._extract_text(result)
            is_error = result.get('isError', False)

            if is_error:
                return NodeRunResult(
                    status=WorkflowNodeExecutionStatus.FAILED,
                    inputs=tool_params,
                    outputs={'text': text_content, 'result': result, 'is_error': True},
                    error=text_content or "
  ++ dq ++ "Tool returned an error" ++ dq
  ++ "
                )

            return NodeRunResult(
                status=WorkflowNodeExecutionStatus.SUCCEEDED,
                inputs=tool_params,
                outputs={
                    'text': text_content,
                    'result': result,
                    'is_error': False,
                }
            )

        except Exception as e:
            return NodeRunResult(
                status=WorkflowNodeExecutionStatus.FAILED,
                inputs=tool_params,
                outputs={},
                error=f"
  ++ dq ++ "MCP tool invocation failed: {str(e)}" ++ dq
  ++ "
            )

    def _invoke_mcp_tool(self, server_url: str, params: dict[str, Any]) -> dict[str, Any]:
        "
  ++ dq ++ dq ++ dq
  ++ "
        Invoke the MCP tool via HTTP/SSE.

        Override this method to customize the invocation logic.
        "
  ++ dq ++ dq ++ dq
  ++ "
        try:
            from core.mcp import MCPClient

            with MCPClient(server_url=server_url, timeout=30.0) as client:
                result = client.invoke_tool(self.MCP_TOOL_NAME, params)
                return self._convert_result(result)

        except ImportError:
            # Fallback to standalone HTTP invocation
            return self._invoke_via_http(server_url, params)

    def _invoke_via_http(self, server_url: str, params: dict[str, Any]) -> dict[str, Any]:
        "
  ++ dq ++ dq ++ dq ++ "Fallback HTTP invocation without Dify's MCPClient."
  ++ dq ++ dq ++ dq
  ++ "
        import httpx

        with httpx.Client(timeout=30.0) as client:
            response = client.post(
                server_url,
                json={
                    'jsonrpc': '2.0',
                    'id': 1,
                    'method': 'tools/call',
                    'params': {
                        'name': self.MCP_TOOL_NAME,
                        'arguments': params,
                    },
                },
                headers={'Content-Type': 'application/json'},
            )
            response.raise_for_status()
            result = response.json()
            return result.get('result', {})

    def _convert_result(self, result: Any) -> dict[str, Any]:
        "
  ++ dq ++ dq ++ dq ++ "Convert MCPClient result to dictionary." ++ dq ++ dq
  ++ dq
  ++ "
        if hasattr(result, 'content'):
            return {
                'content': [
                    {'type': c.type, 'text': getattr(c, 'text', None)}
                    for c in result.content
                ] if result.content else [],
                'structuredContent': result.structuredContent,
                'isError': result.isError,
            }
        return result if isinstance(result, dict) else {'raw': result}

    def _extract_text(self, result: dict[str, Any]) -> str:
        "
  ++ dq ++ dq ++ dq ++ "Extract text content from tool result." ++ dq ++ dq
  ++ dq
  ++ "
        content = result.get('content', [])
        text_parts = []

        for item in content:
            if isinstance(item, dict) and item.get('type') == 'text':
                text_parts.append(item.get('text', ''))
            elif hasattr(item, 'type') and item.type == 'text':
                text_parts.append(getattr(item, 'text', ''))

        return '\n'.join(text_parts)
".

(** The text [_generate_index_ts] returns. *)
Definition index_ts_template (title component_name var_prefix : string) : string :=
  "/**
 * "
  ++ title
  ++ " - Frontend Components
 *
 * Auto-generated from MCP tool schema.
 */

import manifest from '../manifest.json'

export { "
  ++ component_name
  ++ "Node as NodeComponent } from './node'
export { "
  ++ component_name
  ++ "Panel as PanelComponent } from './panel'
export { "
  ++ var_prefix
  ++ "Default as defaultConfig } from './default'

export const nodeType = manifest.node_type
export { manifest }
".

(** The text [_generate_types_ts] returns. *)
Definition types_ts_template (title interface_name node_type_ fields_str : string) : string :=
  "/**
 * Type definitions for "
  ++ title
  ++ " Node
 *
 * Auto-generated from MCP tool schema.
 */

import type { CustomNodeData } from '../../../sdk/typescript/src/types'

export interface "
  ++ interface_name
  ++ " extends CustomNodeData {
  type: '"
  ++ node_type_
  ++ "'
"
  ++ fields_str
  ++ "
}
".

(** The text [_generate_node_tsx] returns. *)
Definition node_tsx_template (title interface_name component_name icon display_content : string) : string :=
  "/**
 * "
  ++ title
  ++ " Node - Canvas Component
 *
 * Auto-generated from MCP tool schema.
 */

import React from 'react'
import type { FC } from 'react'
import type { NodeProps } from '../../../sdk/typescript/src/types'
import type { "
  ++ interface_name
  ++ " } from './types'

export const "
  ++ component_name ++ "Node: FC<NodeProps<" ++ interface_name
  ++ ">> = ({ data }) => {
  return (
    <div className="
  ++ dq ++ "mb-1 px-3 py-1" ++ dq
  ++ ">
      <div className="
  ++ dq
  ++ "flex items-center gap-2 rounded-md bg-gray-50 dark:bg-gray-800/50 p-2"
  ++ dq
  ++ ">
        <div className="
  ++ dq ++ "text-2xl" ++ dq ++ ">" ++ icon
  ++ "</div>
        <div className="
  ++ dq ++ "flex-1" ++ dq
  ++ ">
          <div className="
  ++ dq ++ "text-sm font-medium text-gray-900 dark:text-gray-100 truncate"
  ++ dq
  ++ ">
            {"
  ++ display_content ++ " || '" ++ title
  ++ "'}
          </div>
          <div className="
  ++ dq ++ "text-xs text-gray-500 dark:text-gray-400" ++ dq
  ++ ">
            MCP Tool
          </div>
        </div>
      </div>
    </div>
  )
}

export default React.memo("
  ++ component_name
  ++ "Node)
".

(** The first form field, for the server URL. *)
Definition server_url_field : string :=
  "
        <Field title="
  ++ dq ++ "MCP Server URL" ++ dq
  ++ " required>
          <Input
            value={inputs.mcp_server_url || ''}
            onChange={handleFieldChange('mcp_server_url')}
            placeholder="
  ++ dq ++ "MCP server endpoint URL" ++ dq
  ++ "
          />
          <div className="
  ++ dq ++ "mt-1 text-xs text-gray-500" ++ dq
  ++ ">SSE or HTTP endpoint for MCP server</div>
        </Field>".

(** One option of a select field. *)
Definition select_option (v label : string) : string :=
  "{ value: '" ++ v ++ "', label: '" ++ label ++ "' }".

(** The form field of a parameter with an [enum]. *)
Definition select_field (title required_attr prop_name selected options description_div : string) : string :=
  "
        <Field title="
  ++ dq ++ title ++ dq ++ required_attr
  ++ ">
          <Select
            value={inputs."
  ++ prop_name ++ " || '" ++ selected
  ++ "'}
            onChange={handleFieldChange('"
  ++ prop_name
  ++ "')}
            options={["
  ++ options
  ++ "]}
          />
          "
  ++ description_div
  ++ "
        </Field>".

(** The form field of a boolean parameter. *)
Definition switch_field (title prop_name description_div : string) : string :=
  "
        <Field title="
  ++ dq ++ title ++ dq
  ++ ">
          <Switch
            checked={!!inputs."
  ++ prop_name
  ++ "}
            onChange={(checked) => handleFieldChange('"
  ++ prop_name
  ++ "')(checked)}
          />
          "
  ++ description_div
  ++ "
        </Field>".

(** The form field of a numeric parameter. *)
Definition number_field (title required_attr prop_name title_lower description_div : string) : string :=
  "
        <Field title="
  ++ dq ++ title ++ dq ++ required_attr
  ++ ">
          <Input
            type="
  ++ dq ++ "number" ++ dq
  ++ "
            value={String(inputs."
  ++ prop_name
  ++ " ?? '')}
            onChange={(v) => handleFieldChange('"
  ++ prop_name
  ++ "')(v ? Number(v) : undefined)}
            placeholder="
  ++ dq ++ "Enter " ++ title_lower ++ dq
  ++ "
          />
          "
  ++ description_div
  ++ "
        </Field>".

(** The form field of any other parameter. *)
Definition text_field (title required_attr type_attr prop_name title_lower description_div : string) : string :=
  "
        <Field title="
  ++ dq ++ title ++ dq ++ required_attr
  ++ ">
          <Input
            "
  ++ type_attr
  ++ "
            value={inputs."
  ++ prop_name
  ++ " || ''}
            onChange={handleFieldChange('"
  ++ prop_name
  ++ "')}
            placeholder="
  ++ dq ++ "Enter " ++ title_lower ++ dq
  ++ "
          />
          "
  ++ description_div
  ++ "
        </Field>".

(** The text [_generate_panel_tsx] returns. *)
Definition panel_tsx_template (title interface_name component_name fields_str icon : string) : string :=
  "/**
 * "
  ++ title
  ++ " Node - Configuration Panel
 *
 * Auto-generated from MCP tool schema.
 */

import React from 'react'
import type { FC } from 'react'
import { useConfig } from './use-config'
import type { NodePanelProps } from '../../../sdk/typescript/src/types'
import type { "
  ++ interface_name
  ++ " } from './types'

interface FieldProps {
  title: string
  required?: boolean
  children: React.ReactNode
}

const Field: FC<FieldProps> = ({ title, required, children }) => (
  <div className="
  ++ dq ++ "mb-4" ++ dq
  ++ ">
    <label className="
  ++ dq ++ "block text-sm font-medium text-gray-700 dark:text-gray-300 mb-2"
  ++ dq
  ++ ">
      {title}{required && <span className="
  ++ dq ++ "text-red-500 ml-1" ++ dq
  ++ ">*</span>}
    </label>
    {children}
  </div>
)

interface InputProps {
  value: string
  onChange: (value: string) => void
  placeholder?: string
  type?: string
}

const Input: FC<InputProps> = ({ value, onChange, placeholder, type = 'text' }) => (
  <input
    type={type}
    value={value}
    onChange={(e) => onChange(e.target.value)}
    placeholder={placeholder}
    className="
  ++ dq
  ++ "w-full px-3 py-2 border border-gray-300 dark:border-gray-600 rounded-md bg-white dark:bg-gray-800 text-gray-900 dark:text-gray-100"
  ++ dq
  ++ "
  />
)

interface SelectProps {
  value: string
  onChange: (value: string) => void
  options: Array<{ value: string; label: string }>
}

const Select: FC<SelectProps> = ({ value, onChange, options }) => (
  <select
    value={value}
    onChange={(e) => onChange(e.target.value)}
    className="
  ++ dq
  ++ "w-full px-3 py-2 border border-gray-300 dark:border-gray-600 rounded-md bg-white dark:bg-gray-800 text-gray-900 dark:text-gray-100"
  ++ dq
  ++ "
  >
    {options.map((option) => (
      <option key={option.value} value={option.value}>
        {option.label}
      </option>
    ))}
  </select>
)

interface SwitchProps {
  checked: boolean
  onChange: (checked: boolean) => void
}

const Switch: FC<SwitchProps> = ({ checked, onChange }) => (
  <button
    type="
  ++ dq ++ "button" ++ dq
  ++ "
    role="
  ++ dq ++ "switch" ++ dq
  ++ "
    aria-checked={checked}
    onClick={() => onChange(!checked)}
    className={`relative inline-flex h-6 w-11 items-center rounded-full transition-colors ${checked ? 'bg-blue-600' : 'bg-gray-200 dark:bg-gray-700'}`}
  >
    <span className={`inline-block h-4 w-4 transform rounded-full bg-white transition-transform ${checked ? 'translate-x-6' : 'translate-x-1'}`} />
  </button>
)

export const "
  ++ component_name ++ "Panel: FC<NodePanelProps<" ++ interface_name
  ++ ">> = ({ id, data }) => {
  const { inputs, handleFieldChange, readOnly } = useConfig(id, data)

  return (
    <div className="
  ++ dq ++ "mt-2" ++ dq
  ++ ">
      <div className="
  ++ dq ++ "space-y-4 px-4 pb-4" ++ dq
  ++ ">
"
  ++ fields_str
  ++ "

        <div className="
  ++ dq ++ "rounded-md bg-blue-50 dark:bg-blue-900/20 p-3" ++ dq
  ++ ">
          <div className="
  ++ dq ++ "text-sm font-medium text-blue-900 dark:text-blue-100 mb-1" ++ dq
  ++ ">
            "
  ++ icon
  ++ " Output Variables
          </div>
          <div className="
  ++ dq ++ "text-xs text-blue-700 dark:text-blue-300 space-y-1" ++ dq
  ++ ">
            <div>• <code>text</code> - Text content from result</div>
            <div>• <code>result</code> - Full result object</div>
            <div>• <code>is_error</code> - Whether tool returned error</div>
          </div>
        </div>
      </div>
    </div>
  )
}

export default React.memo("
  ++ component_name
  ++ "Panel)
".

(** The text [_generate_use_config_ts] returns. *)
Definition use_config_ts_template (title interface_name : string) : string :=
  "/**
 * Configuration hook for "
  ++ title
  ++ " Node
 *
 * Auto-generated from MCP tool schema.
 */

import { useCallback, useState } from 'react'
import { produce } from 'immer'
import type { "
  ++ interface_name
  ++ " } from './types'
import type { UseConfigReturn } from '../../../sdk/typescript/src/types'

export const useConfig = (
  id: string,
  payload: "
  ++ interface_name
  ++ "
): UseConfigReturn<"
  ++ interface_name
  ++ "> => {
  const [inputs, setInputs] = useState<"
  ++ interface_name
  ++ ">(payload)

  const handleFieldChange = useCallback(
    (field: keyof "
  ++ interface_name
  ++ ") => {
      return (value: any) => {
        const newInputs = produce(inputs, (draft) => {
          ;(draft as any)[field] = value
        })
        setInputs(newInputs)
      }
    },
    [inputs, id]
  )

  const handleBulkChange = useCallback(
    (changes: Partial<"
  ++ interface_name
  ++ ">) => {
      const newInputs = produce(inputs, (draft) => {
        Object.assign(draft, changes)
      })
      setInputs(newInputs)
    },
    [inputs, id]
  )

  return {
    inputs,
    readOnly: false,
    handleFieldChange,
    handleBulkChange,
  }
}
".

(** The first validation check, for the server URL. *)
Definition server_url_check : string :=
  "
    if (!payload.mcp_server_url || payload.mcp_server_url.trim() === '') {
      return {
        isValid: false,
        errorMessage: t?.('workflow.nodes.mcp.serverUrlRequired') || 'MCP Server URL is required',
      }
    }".

(** The validation check of a required parameter. *)
Definition required_check (prop_name node_type_ title : string) : string :=
  "
    if (!payload."
  ++ prop_name ++ " || (typeof payload." ++ prop_name
  ++ " === 'string' && payload." ++ prop_name
  ++ ".trim() === '')) {
      return {
        isValid: false,
        errorMessage: t?.('workflow.nodes."
  ++ node_type_ ++ "." ++ prop_name ++ "Required') || '" ++ title
  ++ " is required',
      }
    }".

(** The text [_generate_default_ts] returns. *)
Definition default_ts_template (title interface_name var_name defaults_str validations_str : string) : string :=
  "/**
 * Default configuration for "
  ++ title
  ++ " Node
 *
 * Auto-generated from MCP tool schema.
 */

import type { NodeDefault, ValidationResult } from '../../../sdk/typescript/src/types'
import { VarType } from '../../../sdk/typescript/src/types'
import type { "
  ++ interface_name
  ++ " } from './types'

export const "
  ++ var_name ++ ": NodeDefault<" ++ interface_name
  ++ "> = {
  defaultValue: {
"
  ++ defaults_str
  ++ "
  },

  checkValid(payload: "
  ++ interface_name ++ ", t: any): ValidationResult {" ++ validations_str
  ++ "

    return {
      isValid: true,
    }
  },

  getOutputVars(payload: "
  ++ interface_name
  ++ ") {
    return [
      {
        variable: 'text',
        type: VarType.String,
        description: 'Text content from tool result',
      },
      {
        variable: 'result',
        type: VarType.Object,
        description: 'Full tool result object',
      },
      {
        variable: 'is_error',
        type: VarType.Boolean,
        description: 'Whether the tool returned an error',
      },
    ]
  },
}
".

(** *** The manifest *)

(** The entry of one parameter in the manifest's [inputs]. *)
Definition input_def (required : json) (prop_name : string)
  (prop_schema : json) : result json :=
  let* type_ := Py.get prop_schema "type" (JStr "string") in
  let d := [("type", type_); ("title", JStr (_format_name prop_name))] in
  let* has_description := Py.contains "description" prop_schema in
  let* d :=
    if has_description
    then let* v := Py.getitem prop_schema "description" in
         Ok (Py.setitem "description" v d)
    else Ok d in
  let* is_required := Py.contains prop_name required in
  let d := if is_required then Py.setitem "required" (JBool true) d else d in
  let* has_default := Py.contains "default" prop_schema in
  let* d :=
    if has_default
    then let* v := Py.getitem prop_schema "default" in
         Ok (Py.setitem "default" v d)
    else Ok d in
  let* has_enum := Py.contains "enum" prop_schema in
  let* d :=
    if has_enum
    then let* v := Py.getitem prop_schema "enum" in
         Ok (Py.setitem "enum" v d)
    else Ok d in
  Ok (JObj d).

(** The loop of [_generate_input_schema] over [properties.items()]. *)
Fixpoint input_schema_loop (required : json) (props : dict) (inputs : dict)
  : result dict :=
  match props with
  | [] => Ok inputs
  | (prop_name, prop_schema) :: rest =>
      let* d := input_def required prop_name prop_schema in
      input_schema_loop required rest (Py.setitem prop_name d inputs)
  end.

Definition server_url_input : json :=
  JObj [ ("type", JStr "string");
         ("title", JStr "MCP Server URL");
         ("description", JStr "MCP server endpoint (SSE or HTTP)");
         ("required", JBool true) ].

Definition _generate_input_schema (schema : MCPToolSchema) : result json :=
  let inputs := [("mcp_server_url", server_url_input)] in
  let* props := properties schema in
  let* required := required_fields schema in
  let* props := Py.items props in
  let* inputs := input_schema_loop required props inputs in
  Ok (JObj inputs).

Definition _generate_output_schema (schema : MCPToolSchema) : json :=
  JObj [ ("text",
          JObj [ ("type", JStr "string");
                 ("description", JStr "Text content from tool result") ]);
         ("result",
          JObj [ ("type", JStr "object");
                 ("description", JStr "Full tool result object") ]);
         ("is_error",
          JObj [ ("type", JStr "boolean");
                 ("description",
                  JStr "Whether the tool returned an error") ]) ].

(** The [manifest] dictionary of [_generate_manifest]. *)
Definition manifest_of (schema : MCPToolSchema) : result json :=
  let* inputs := _generate_input_schema schema in
  Ok (JObj
        [ ("node_type", JStr (node_type schema));
          ("version", JStr "1");
          ("name", JStr (_format_name (name schema)));
          ("description",
           Py.or_else (description schema)
             (JStr ("MCP tool: " ++ name schema)));
          ("author", JStr "MCP Node Generator");
          ("icon", JStr (_get_icon schema));
          ("category", JStr "mcp-tools");
          ("backend",
           JObj [ ("entry", JStr "node.py");
                  ("dependencies", JArr [JStr "httpx>=0.27.0"]) ]);
          ("frontend", JObj [ ("entry", JStr "index.ts") ]);
          ("inputs", inputs);
          ("outputs", _generate_output_schema schema) ]).

(** *** The backend file *)

(** The text put for [{default}] in an input line: the value of
    [prop_schema.get('default', "''")] after the two tests on it. *)
Definition default_text (prop_schema : json) : result string :=
  let* default := Py.get prop_schema "default" (JStr "''") in
  Ok match default with
     | JStr s => "'" ++ s ++ "'"
     | JNull => "None"
     | other => Py.str other
     end.

(** [', '.join(f"'{p}': {p}" for p in properties.keys())] *)
Definition params_listing (keys : list string) : string :=
  Str.join ", " (List.map (fun p => "'" ++ p ++ "': " ++ p) keys).

(** The loop of [_generate_node_py]: [input_lines] and
    [validation_lines]. *)
Fixpoint node_py_loop (required : json) (params : string) (props : dict)
  : result (list string * list string) :=
  match props with
  | [] => Ok ([], [])
  | (prop_name, prop_schema) :: rest =>
      let* default := default_text prop_schema in
      let line := input_line prop_name default in
      let* is_required := Py.contains prop_name required in
      let block :=
        if is_required
        then [validation_block prop_name params (_format_name prop_name)]
        else [] in
      let* r := node_py_loop required params rest in
      Ok (line :: fst r, (block ++ snd r)%list)
  end.

Definition _generate_node_py (schema : MCPToolSchema) (server_url_ : string)
  : result string :=
  let* props := properties schema in
  let* required := required_fields schema in
  let* props := Py.items props in
  let params := params_listing (List.map fst props) in
  let* r := node_py_loop required params props in
  let inputs_str := Str.join (String Char.newline EmptyString) (fst r) in
  let validations_str := String.concat "" (snd r) in
  Ok (node_py_template
        (_format_name (name schema))
        (Py.str (Py.or_else (description schema) (JStr "")))
        (node_type schema)
        (class_name schema)
        (name schema)
        (Py.str (Py.or_else (description schema)
                   (JStr "No description available.")))
        inputs_str validations_str params).

(** *** The frontend files *)

Definition component_name (schema : MCPToolSchema) : string :=
  Str.replace "Node" "" (class_name schema).

Definition interface_name (schema : MCPToolSchema) : string :=
  component_name schema ++ "NodeData".

Definition _generate_index_ts (schema : MCPToolSchema) : result string :=
  Ok (index_ts_template (_format_name (name schema)) (component_name schema)
        (Str.replace "-" "" (node_type schema))).

(** The loop of [_generate_types_ts]. *)
Fixpoint types_ts_loop (schema : MCPToolSchema) (props : dict)
  : result (list string) :=
  match props with
  | [] => Ok []
  | (prop_name, prop_schema) :: rest =>
      let* ts_type := get_typescript_type prop_schema in
      let* required := required_fields schema in
      let* is_required := Py.contains prop_name required in
      let optional := if negb is_required then "?" else "" in
      let* fields := types_ts_loop schema rest in
      Ok (("  " ++ prop_name ++ optional ++ ": " ++ ts_type) :: fields)
  end.

Definition _generate_types_ts (schema : MCPToolSchema) : result string :=
  let* props := properties schema in
  let* props := Py.items props in
  let* fields := types_ts_loop schema props in
  let fields_str :=
    Str.join (String Char.newline EmptyString)
      ("  mcp_server_url: string" :: fields) in
  Ok (types_ts_template (_format_name (name schema)) (interface_name schema)
        (node_type schema) fields_str).

Definition _generate_node_tsx (schema : MCPToolSchema) : result string :=
  let* props := properties schema in
  let* keys := Py.keys props in
  let display_content :=
    match keys with
    | first_prop :: _ =>
        if Str.nonempty first_prop then "data." ++ first_prop
        else "'MCP Tool'"
    | [] => "'MCP Tool'"
    end in
  Ok (node_tsx_template (_format_name (name schema)) (interface_name schema)
        (component_name schema) (_get_icon schema) display_content).

(** [self._format_name(x)] for a value that need not be text:
    [x.replace] is a method of [str]. *)
Definition format_name_of (x : json) : result string :=
  match x with
  | JStr s => Ok (_format_name s)
  | _ => Raise AttributeError
  end.

(** The [<div>] under a field, when [description] is true. *)
Definition description_div (description_ : json) : string :=
  if Py.truthy description_
  then "<div className=" ++ dq ++ "mt-1 text-xs text-gray-500" ++ dq ++ ">"
       ++ Py.str description_ ++ "</div>"
  else "".

Definition is_password (prop_name : string) : bool :=
  Str.contains "password" (Str.lower prop_name) ||
  Str.contains "key" (Str.lower prop_name) ||
  Str.contains "secret" (Str.lower prop_name).

(** The form field of one parameter. *)
Definition field_component (required : json) (prop_name : string)
  (prop_schema : json) : result string :=
  let title := _format_name prop_name in
  let* description_ := Py.get prop_schema "description" (JStr "") in
  let* is_required := Py.contains prop_name required in
  let* prop_type := Py.get prop_schema "type" (JStr "string") in
  let required_attr := if is_required then " required" else "" in
  let* has_enum := Py.contains "enum" prop_schema in
  if has_enum then
    let* enum := Py.getitem prop_schema "enum" in
    let* vs := Py.iter enum in
    let options :=
      Str.join ", "
        (List.map (fun v => select_option (Py.str v) (_format_name (Py.str v)))
           vs) in
    let* head := Py.first enum in
    let* selected := Py.get prop_schema "default" head in
    Ok (select_field title required_attr prop_name (Py.str selected) options
          (description_div description_))
  else if Py.eq_str prop_type "boolean" then
    Ok (switch_field title prop_name (description_div description_))
  else if Py.eq_str prop_type "number" || Py.eq_str prop_type "integer" then
    Ok (number_field title required_attr prop_name (Str.lower title)
          (description_div description_))
  else
    Ok (text_field title required_attr
          (if is_password prop_name
           then "type=" ++ dq ++ "password" ++ dq else "")
          prop_name (Str.lower title) (description_div description_)).

Definition _generate_panel_tsx (schema : MCPToolSchema) : result string :=
  let* props := properties schema in
  let* required := required_fields schema in
  let* props := Py.items props in
  let* fields :=
    mapM (fun kv => field_component required (fst kv) (snd kv)) props in
  let fields_str :=
    Str.join (String Char.newline EmptyString) (server_url_field :: fields) in
  Ok (panel_tsx_template (_format_name (name schema)) (interface_name schema)
        (component_name schema) fields_str (_get_icon schema)).

Definition _generate_use_config_ts (schema : MCPToolSchema) : result string :=
  Ok (use_config_ts_template (_format_name (name schema))
        (interface_name schema)).

(** The entry of one parameter in [defaultValue]. *)
Definition default_entry (prop_name : string) (prop_schema : json)
  : result string :=
  let* default := Py.get_none prop_schema "default" in
  match default with
  | JNull =>
      let* type_ := Py.get_none prop_schema "type" in
      if Py.eq_str type_ "boolean"
      then Ok ("    " ++ prop_name ++ ": false,")
      else Ok ("    " ++ prop_name ++ ": '',")
  | JStr s => Ok ("    " ++ prop_name ++ ": '" ++ s ++ "',")
  | JBool b => Ok ("    " ++ prop_name ++ ": " ++ Str.lower (Py.str default) ++ ",")
  | other => Ok ("    " ++ prop_name ++ ": " ++ Py.str other ++ ",")
  end.

(** The check of one element of [required]. *)
Definition required_check_of (schema : MCPToolSchema) (prop_name : json)
  : result string :=
  let* title := format_name_of prop_name in
  Ok (required_check (Py.str prop_name) (node_type schema) title).

Definition _generate_default_ts (schema : MCPToolSchema) : result string :=
  let var_name := Str.replace "-" "" (node_type schema) ++ "Default" in
  let* props := properties schema in
  let* required := required_fields schema in
  let defaults :=
    [ "    title: '" ++ _format_name (name schema) ++ "',";
      "    desc: '"
        ++ Py.str (Py.or_else (description schema) (JStr "MCP Tool")) ++ "',";
      "    type: '" ++ node_type schema ++ "',";
      "    mcp_server_url: ''," ] in
  let* props := Py.items props in
  let* entries := mapM (fun kv => default_entry (fst kv) (snd kv)) props in
  let defaults_str :=
    Str.join (String Char.newline EmptyString) (defaults ++ entries)%list in
  let* required := Py.iter required in
  let* checks := mapM (required_check_of schema) required in
  let validations_str := String.concat "" (server_url_check :: checks) in
  Ok (default_ts_template (_format_name (name schema)) (interface_name schema)
        var_name defaults_str validations_str).

(** *** Writing the bundle *)

Record CustomNodeGenerator : Type := {
  output_dir : string;
}.

(** A step of the generator: the file system after it, and the value or
    the exception it ends with.  What was written before an exception
    stays written. *)
Definition gen (A : Type) : Type :=
  gmap string file -> gmap string file * result A.

Definition gen_bind {A B : Type} (m : gen A) (k : A -> gen B) : gen B :=
  fun fs =>
    match m fs with
    | (fs', Ok a) => k a fs'
    | (fs', Raise e) => (fs', Raise e)
    end.

Definition gen_ret {A : Type} (a : A) : gen A := fun fs => (fs, Ok a).

(** A computation that touches no file. *)
Definition pure {A : Type} (r : result A) : gen A := fun fs => (fs, r).

(** A write. *)
Definition effect (w : gmap string file -> gmap string file) : gen unit :=
  fun fs => (w fs, Ok tt).

(** [path.mkdir(...)]: see the note on the file system. *)
Definition mkdir (path : string) : gen unit := gen_ret tt.

Notation "'gen*' x ':=' m 'in' k" := (gen_bind m (fun x => k))
  (at level 10, x name, m at level 100, k at level 200).

Definition _generate_manifest (node_dir : string) (schema : MCPToolSchema)
  : gen unit :=
  gen* manifest := pure (manifest_of schema) in
  effect (json_dump (joinpath node_dir "manifest.json") manifest).

Definition _generate_backend (node_dir : string) (schema : MCPToolSchema)
  (server_url_ : string) : gen unit :=
  let backend_dir := joinpath node_dir "backend" in
  gen* _ := mkdir backend_dir in
  gen* _ := effect (write_text (joinpath backend_dir "__init__.py") "") in
  gen* node_code := pure (_generate_node_py schema server_url_) in
  effect (write_text (joinpath backend_dir "node.py") node_code).

(** The [files] dictionary of [_generate_frontend], in its order. *)
Definition frontend_files (schema : MCPToolSchema)
  : result (list (string * string)) :=
  let* index_ts := _generate_index_ts schema in
  let* types_ts := _generate_types_ts schema in
  let* node_tsx := _generate_node_tsx schema in
  let* panel_tsx := _generate_panel_tsx schema in
  let* use_config_ts := _generate_use_config_ts schema in
  let* default_ts := _generate_default_ts schema in
  Ok [ ("index.ts", index_ts); ("types.ts", types_ts);
       ("node.tsx", node_tsx); ("panel.tsx", panel_tsx);
       ("use-config.ts", use_config_ts); ("default.ts", default_ts) ].

(** The loop over [files.items()]. *)
Fixpoint write_files (dir : string) (files : list (string * string))
  : gen unit :=
  match files with
  | [] => gen_ret tt
  | (filename, content) :: rest =>
      gen* _ := effect (write_text (joinpath dir filename) content) in
      write_files dir rest
  end.

Definition _generate_frontend (node_dir : string) (schema : MCPToolSchema)
  : gen unit :=
  let frontend_dir := joinpath node_dir "frontend" in
  gen* _ := mkdir frontend_dir in
  gen* files := pure (frontend_files schema) in
  write_files frontend_dir files.

Definition generate (self : CustomNodeGenerator) (schema : MCPToolSchema)
  (server_url_ : string) : gen string :=
  let node_dir := joinpath (output_dir self) (node_type schema) in
  gen* _ := mkdir node_dir in
  gen* _ := _generate_manifest node_dir schema in
  gen* _ := _generate_backend node_dir schema server_url_ in
  gen* _ := _generate_frontend node_dir schema in
  gen_ret node_dir.

(** [[self.generate(schema, server_url) for schema in schemas]] *)
Fixpoint generate_all (self : CustomNodeGenerator)
  (schemas : list MCPToolSchema) (server_url_ : string) : gen (list string) :=
  match schemas with
  | [] => gen_ret []
  | schema :: rest =>
      gen* node_dir := generate self schema server_url_ in
      gen* dirs := generate_all self rest server_url_ in
      gen_ret (node_dir :: dirs)
  end.

(** ** The identifier derivation in the words of the specification *)

Module Spec.

(** "every character outside [a-z0-9]" *)
Definition in_a_z_0_9 (c : ascii) : bool := Char.is_lower c || Char.is_digit c.

(** "collapse consecutive hyphens": a hyphen that follows a hyphen is
    left out. *)
Fixpoint collapse (after_hyphen : bool) (s : string) : string :=
  match s with
  | EmptyString => EmptyString
  | String c s' =>
      if Char.is_hyphen c then
        if after_hyphen then collapse true s' else String c (collapse true s')
      else String c (collapse false s')
  end.

Definition namespace_tag : string := "mcp".
Definition separator : string := "-".

Definition to_slug_identifier (name_ : string) : string :=
  let lowered := Str.lower name_ in
  let hyphenated :=
    Str.map (fun c => if in_a_z_0_9 c then c else Char.hyphen) lowered in
  let collapsed := collapse false hyphenated in
  let stripped := Str.strip Char.is_hyphen collapsed in
  namespace_tag ++ separator ++ stripped.

(** "split the name on underscores, hyphens, and whitespace": a cut at
    every such character; the empty segments are left out afterwards. *)
Definition is_separator (c : ascii) : bool :=
  Ascii.eqb c "_" || Ascii.eqb c "-" || Char.is_space c.

Fixpoint segments (s : string) : list string :=
  match s with
  | EmptyString => [EmptyString]
  | String c s' =>
      if is_separator c then EmptyString :: segments s'
      else
        match segments s' with
        | w :: ws => String c w :: ws
        | [] => [String c EmptyString]
        end
  end.

Definition to_type_identifier (name_ : string) : string :=
  let capitalized :=
    List.map Str.capitalize (List.filter Str.nonempty (segments name_)) in
  "MCP" ++ String.concat "" capitalized ++ "Node".

End Spec.

(** ** The type mapping in the words of the specification *)

(** The vocabulary of type tags: the six of the specification, and
    everything else (no tag, a tag that is no text, an unknown text). *)
Inductive tag : Type :=
| TString | TNumber | TInteger | TBoolean | TArray | TObject | TOther.

Definition tag_of (d : dict) : tag :=
  match Py.lookup "type" d with
  | Some (JStr s) =>
      if String.eqb s "string" then TString
      else if String.eqb s "number" then TNumber
      else if String.eqb s "integer" then TInteger
      else if String.eqb s "boolean" then TBoolean
      else if String.eqb s "array" then TArray
      else if String.eqb s "object" then TObject
      else TOther
  | _ => TOther
  end.

(** [prop_schema.get('items', {})] *)
Definition items_of (d : dict) : json :=
  match Py.lookup "items" d with Some v => v | None => empty_dict end.

(** The element schemas of [p], at every depth of array nesting, are
    objects: [p] is an object and, when its tag is [array] and it has
    [items], they are such a schema again. *)
Fixpoint element_schemas_ok (p : json) : bool :=
  match p with
  | JObj d =>
      match tag_of d with
      | TArray => lookup_with element_schemas_ok true "items" d
      | _ => true
      end
  | _ => false
  end.

Definition iterable (x : json) : bool :=
  match x with
  | JArr _ | JStr _ | JObj _ => true
  | _ => false
  end.

(** Moreover the [enum] that the frontend mapping reads, the one of a
    schema tagged [string], can be iterated over. *)
Fixpoint enums_ok (p : json) : bool :=
  match p with
  | JObj d =>
      match tag_of d with
      | TArray => lookup_with enums_ok true "items" d
      | TString =>
          match Py.lookup "enum" d with
          | Some enum => iterable enum
          | None => true
          end
      | _ => true
      end
  | _ => false
  end.

(** The height of a JSON tree. *)
Fixpoint height (x : json) : nat :=
  match x with
  | JArr l => S (List.list_max (List.map height l))
  | JObj d =>
      S (List.list_max
           (List.map (fun kv => match kv with (_, v) => height v end) d))
  | _ => 0
  end.

(** ** Example inputs *)

(** An integer parameter with an enumeration. *)
Definition integer_enum_schema : json :=
  JObj [ ("type", JStr "integer"); ("enum", JArr [JInt 1; JInt 2]) ].

(** An array parameter whose [items] is a list of schemas (the tuple form
    of JSON Schema). *)
Definition tuple_items_schema : json :=
  JObj [ ("type", JStr "array");
         ("items", JArr [ JObj [("type", JStr "string")];
                          JObj [("type", JStr "integer")] ]) ].

(** An array of arrays of values of an unknown type. *)
Definition nested_array_schema : json :=
  JObj [ ("type", JStr "array");
         ("items", JObj [ ("type", JStr "array");
                          ("items", JObj [("type", JStr "uuid")]) ]) ].

(** The schema of the generated example [nodes/mcp-list-directory]: one
    required text parameter [path], with no default. *)
Definition list_directory_schema : MCPToolSchema :=
  {| name := "list_directory";
     description :=
       JStr "List files and directories in a specified path. Returns file names, sizes, and modification times.";
     input_schema :=
       JObj [ ("type", JStr "object");
              ("properties",
               JObj [ ("path",
                       JObj [ ("type", JStr "string");
                              ("description", JStr "Directory path") ]) ]);
              ("required", JArr [JStr "path"]) ];
     output_schema := JNull;
     annotations := JNull;
     node_type := _generate_node_type "list_directory";
     class_name := _generate_class_name "list_directory" |}.

(** A flat record whose stored identifiers do not belong to its name, and
    the schema [from_dict] makes of it. *)
Definition tampered_record : json :=
  JObj [ ("name", JStr "list_directory");
         ("node_type", JStr "mcp-delete-everything");
         ("class_name", JStr "MCPDeleteEverythingNode") ].

Definition tampered_loaded : MCPToolSchema :=
  {| name := "list_directory";
     description := JNull;
     input_schema := empty_dict;
     output_schema := JNull;
     annotations := JNull;
     node_type := "mcp-list-directory";
     class_name := "MCPListDirectoryNode" |}.

(** A boolean parameter whose schema stores [null] as its default. *)
Definition null_default_schema : dict :=
  [ ("type", JStr "boolean"); ("default", JNull) ].

(** The fallback of [default.ts] for a parameter without a default. *)
Definition fallback_entry (prop_name : string) (d : dict) : string :=
  if Py.eq_str (match Py.lookup "type" d with Some t => t | None => JNull end)
       "boolean"
  then "    " ++ prop_name ++ ": false,"
  else "    " ++ prop_name ++ ": '',".

(** ** The handshake in the words of the specification *)

(** The request that opens the event stream. *)
Definition sse_request (self : MCPSchemaExtractor) : Request :=
  StreamGet (server_url self)
    (Py.setitem "Accept" (JStr "text/event-stream") (headers self))
    (timeout self).

(** [line] is an event whose decoded payload has the field [endpoint],
    with the value [endpoint]. *)
Definition endpoint_event (json_loads : string -> result json)
  (line : string) (endpoint : json) : Prop :=
  Str.startswith "data: " line = true /\
  exists d, json_loads (Str.drop 6 line) = Ok (JObj d) /\
            Py.lookup "endpoint" d = Some endpoint.

(** [line] is read and the loop goes on: it is no event, or its payload
    decodes and the test for [endpoint] on it is false. *)
Definition passed_over (json_loads : string -> result json)
  (line : string) : Prop :=
  Str.startswith "data: " line = true ->
  exists data, json_loads (Str.drop 6 line) = Ok data /\
               Py.contains "endpoint" data = Ok false.

(** A URL whose query, not its path, has the text [/sse]. *)
Definition sse_in_query_url : string := "http://localhost:3000/mcp?next=/sse".

(** A remote side whose event stream has a comment, an event name and one
    event with an empty payload, and a decoder that knows that payload. *)
Definition silent_network (rq : Request) : result Response :=
  Ok {| is_success := true;
        iter_lines := [": ping"; "event: message"; "data: {}"];
        json_body := Raise JSONDecodeError |}.

Definition toy_json_loads (s : string) : result json :=
  if String.eqb s "{}" then Ok (JObj []) else Raise JSONDecodeError.

(** A remote side that cannot be reached. *)
Definition unreachable_network (rq : Request) : result Response :=
  Raise ConnectError.

(** ** Runs of the generator as sequences of writes *)

(** The file system after the writes [files], in their order. *)
Definition write_all (files : list (string * file)) (fs : gmap string file)
  : gmap string file :=
  List.fold_left (fun m pf => <[fst pf := snd pf]> m) files fs.

(** What the writes [files] leave at [path], if one of them is to it. *)
Definition written (files : list (string * file)) (path : string)
  : option file :=
  List.fold_left
    (fun acc pf => if String.eqb path (fst pf) then Some (snd pf) else acc)
    files None.

(** A step that only writes: what it writes and what it ends with do not
    depend on the file system it starts from. *)
Definition write_only {A : Type} (m : gen A) : Prop :=
  exists files r, forall fs, m fs = (write_all files fs, r).

(** The nine files of a bundle, in the order they are written. *)
Definition bundle_paths (self : CustomNodeGenerator) (schema : MCPToolSchema)
  : list string :=
  let node_dir := joinpath (output_dir self) (node_type schema) in
  [ joinpath node_dir "manifest.json";
    joinpath (joinpath node_dir "backend") "__init__.py";
    joinpath (joinpath node_dir "backend") "node.py";
    joinpath (joinpath node_dir "frontend") "index.ts";
    joinpath (joinpath node_dir "frontend") "types.ts";
    joinpath (joinpath node_dir "frontend") "node.tsx";
    joinpath (joinpath node_dir "frontend") "panel.tsx";
    joinpath (joinpath node_dir "frontend") "use-config.ts";
    joinpath (joinpath node_dir "frontend") "default.ts" ].

(** ** Shapes of texts *)

(** Every character of [s] is in the class [p]. *)
Fixpoint all_chars (p : ascii -> bool) (s : string) : bool :=
  match s with
  | EmptyString => true
  | String c s' => p c && all_chars p s'
  end.

(** The characters of a slug: [a-z], [0-9] and the hyphen. *)
Definition slug_char (c : ascii) : bool :=
  Char.is_lower c || Char.is_digit c || Char.is_hyphen c.

(** The shape of a slug: slug characters only, no two hyphens in a row, no
    hyphen at either end. *)
Definition slug_shaped (s : string) : bool :=
  all_chars slug_char s && negb (Str.contains "--" s) &&
  negb (Str.startswith "-" s) && negb (Str.endswith "-" s).

(** The first character of [s] is in the class [p]. *)
Definition first_in (p : ascii -> bool) (s : string) : bool :=
  match s with
  | String c _ => p c
  | EmptyString => false
  end.


(** The characters that are no separators of the type identifier. *)
Definition not_word_sep (c : ascii) : bool := negb (is_word_sep c).


(** Letters, digits and the separators of the type identifier. *)
Definition alnum_or_sep (c : ascii) : bool := is_alnum c || is_word_sep c.

(** ** More example inputs *)

(** The header [Content-Type] of a [tools/list] request. *)
Definition post_headers (self : MCPSchemaExtractor) : dict :=
  Py.setitem "Content-Type" (JStr "application/json") (headers self).

(** The [tools/list] request of the direct variant. *)
Definition direct_request (self : MCPSchemaExtractor) : Request :=
  Post (JStr (server_url self)) (post_headers self) (timeout self)
    tools_list_body.

(** A reply with two records of the same name. *)
Definition twin_reply : json :=
  JObj [ ("jsonrpc", JStr "2.0"); ("id", JInt 1);
         ("result",
          JObj [ ("tools",
                  JArr [ JObj [ ("name", JStr "search");
                                ("description", JStr "first") ];
                         JObj [ ("name", JStr "search");
                                ("description", JStr "second") ] ]) ]) ].

(** A JSON-RPC error reply: no [result]. *)
Definition error_reply : dict :=
  [ ("jsonrpc", JStr "2.0"); ("id", JInt 1);
    ("error",
     JObj [ ("code", JInt (-32601)); ("message", JStr "Method not found") ]) ].

Definition error_reply_network (rq : Request) : result Response :=
  Ok {| is_success := true;
        iter_lines := [];
        json_body := Ok (JObj error_reply) |}.

(** An event payload with an [endpoint], as text, and a decoder that knows
    it and the empty object. *)
Definition session_payload : string :=
  "{" ++ dq ++ "endpoint" ++ dq ++ ": " ++ dq ++ "/messages?session=1" ++ dq
  ++ "}".

Definition session_json_loads (s : string) : result json :=
  if String.eqb s "{}" then Ok (JObj [])
  else if String.eqb s session_payload
  then Ok (JObj [("endpoint", JStr "/messages?session=1")])
  else Raise JSONDecodeError.

(** A second tool whose name differs from [list_directory] in its
    separator only. *)
Definition list_directory_twin : MCPToolSchema :=
  {| name := "list-directory";
     description := JNull;
     input_schema := JObj [];
     output_schema := JNull;
     annotations := JNull;
     node_type := _generate_node_type "list-directory";
     class_name := _generate_class_name "list-directory" |}.


(** ** The command line *)

(** [s.split(sep)] for a separator of one character: the pieces between
    its occurrences, the empty ones too. *)
Fixpoint split_char (sep : ascii) (s : string) : list string :=
  match s with
  | EmptyString => [EmptyString]
  | String c s' =>
      if Ascii.eqb c sep then EmptyString :: split_char sep s'
      else
        match split_char sep s' with
        | w :: ws => String c w :: ws
        | [] => [String c EmptyString]
        end
  end.

(** [s.split(sep, 1)]: [s] is cut at the first occurrence of [sep] only. *)
Fixpoint split_once (sep : ascii) (s : string) : list string :=
  match s with
  | EmptyString => [EmptyString]
  | String c s' =>
      if Ascii.eqb c sep then [EmptyString; s']
      else
        match split_once sep s' with
        | w :: ws => String c w :: ws
        | [] => [String c EmptyString]
        end
  end.

(** The loop of [_parse_headers]; [key, value = ...] needs a list of two
    pieces. *)
Fixpoint parse_headers_loop (pairs : list string) (headers_ : dict)
  : result dict :=
  match pairs with
  | [] => Ok headers_
  | pair_ :: rest =>
      if Str.contains ":" pair_
      then
        match split_once ":" pair_ with
        | [key; value] =>
            parse_headers_loop rest
              (Py.setitem (Str.strip Char.is_space key)
                 (JStr (Str.strip Char.is_space value)) headers_)
        | [_] =>
            Raise (ValueError "not enough values to unpack (expected 2, got 1)")
        | _ => Raise (ValueError "too many values to unpack (expected 2)")
        end
      else parse_headers_loop rest headers_
  end.

Definition _parse_headers (headers_str : string) : result dict :=
  parse_headers_loop (split_char "," headers_str) [].

(** A header of the command line, as text and as an entry of the
    dictionary. *)
Definition header_text (kv : string * string) : string :=
  fst kv ++ ":" ++ snd kv.

Definition header_entry (kv : string * string) : string * json :=
  (Str.strip Char.is_space (fst kv), JStr (Str.strip Char.is_space (snd kv))).

(** A text without white space at either end. *)
Definition stripped (s : string) : Prop := Str.strip Char.is_space s = s.




(** [prop_name in required], where the test can be made. *)
Definition listed (required : json) (prop_name : string) : bool :=
  match Py.contains prop_name required with
  | Ok b => b
  | Raise _ => false
  end.

(** The fields of a parameter's entry in the manifest. *)
Definition entry_field (required : json) (prop_name : string) (d : dict)
  (k : string) : option json :=
  if String.eqb k "type"
  then Some (match Py.lookup "type" d with
             | Some v => v
             | None => JStr "string"
             end)
  else if String.eqb k "title" then Some (JStr (_format_name prop_name))
  else if String.eqb k "description" then Py.lookup "description" d
  else if String.eqb k "required"
  then (if listed required prop_name then Some (JBool true) else None)
  else if String.eqb k "default" then Py.lookup "default" d
  else if String.eqb k "enum" then Py.lookup "enum" d
  else None.

(** * Properties *)

(** ** Identifier derivation *)

Lemma lower_alnum (c : ascii) :
  is_alnum (Char.lower c) = Spec.in_a_z_0_9 (Char.lower c).
Proof.
  destruct c as [[] [] [] [] [] [] [] []]; reflexivity.
Qed.

Lemma sub_non_alnum_lower (s : string) :
  sub_non_alnum (Str.lower s) =
  Str.map (fun c => if Spec.in_a_z_0_9 c then c else Char.hyphen) (Str.lower s).
Proof.
  induction s as [|c s IH]; simpl; [reflexivity|].
  unfold sub_non_alnum in IH. unfold sub_non_alnum. simpl.
  rewrite lower_alnum. f_equal. exact IH.
Qed.

Lemma is_hyphen_eq (c : ascii) : Char.is_hyphen c = true -> c = Char.hyphen.
Proof. unfold Char.is_hyphen. intros H. apply Ascii.eqb_eq. exact H. Qed.

(** Keeping the last hyphen of a run or the first one gives the same text. *)
Lemma squeeze_collapse (s : string) :
  Str.squeeze Char.is_hyphen s = Spec.collapse false s /\
  (forall c, Char.is_hyphen c = true ->
     Str.squeeze Char.is_hyphen (String c s) = String c (Spec.collapse true s)).
Proof.
  induction s as [|d s [IH1 IH2]].
  - split; [reflexivity|]. intros c Hc. simpl. rewrite Hc. reflexivity.
  - split.
    + destruct (Char.is_hyphen d) eqn:Hd.
      * rewrite (IH2 d Hd). simpl. rewrite Hd. reflexivity.
      * simpl. rewrite Hd. f_equal. exact IH1.
    + intros c Hc. destruct (Char.is_hyphen d) eqn:Hd.
      * change (Str.squeeze Char.is_hyphen (String c (String d s)))
          with (if Char.is_hyphen c
                then if Char.is_hyphen d
                     then Str.squeeze Char.is_hyphen (String d s)
                     else String c (Str.squeeze Char.is_hyphen (String d s))
                else String c (Str.squeeze Char.is_hyphen (String d s))).
        rewrite Hc, Hd. rewrite (IH2 d Hd). simpl. rewrite Hd.
        pose proof (is_hyphen_eq c Hc) as Ec.
        pose proof (is_hyphen_eq d Hd) as Ed.
        congruence.
      * change (Str.squeeze Char.is_hyphen (String c (String d s)))
          with (if Char.is_hyphen c
                then if Char.is_hyphen d
                     then Str.squeeze Char.is_hyphen (String d s)
                     else String c (Str.squeeze Char.is_hyphen (String d s))
                else String c (Str.squeeze Char.is_hyphen (String d s))).
        rewrite Hc, Hd. f_equal.
        change (Str.squeeze Char.is_hyphen (String d s))
          with (if Char.is_hyphen d
                then match s with
                     | String e _ =>
                         if Char.is_hyphen e
                         then Str.squeeze Char.is_hyphen s
                         else String d (Str.squeeze Char.is_hyphen s)
                     | EmptyString => String d EmptyString
                     end
                else String d (Str.squeeze Char.is_hyphen s)).
        rewrite Hd. simpl. rewrite Hd. f_equal. exact IH1.
Qed.

Lemma node_type_refines (n : string) :
  _generate_node_type n = Spec.to_slug_identifier n.
Proof.
  unfold _generate_node_type, Spec.to_slug_identifier.
  rewrite sub_non_alnum_lower.
  rewrite (proj1 (squeeze_collapse _)). reflexivity.
Qed.

(** Cutting at the runs and cutting at every separator agree on the first
    piece and on the non-empty ones among the rest. *)
Lemma split_runs_segments (s : string) :
  (Str.head_of (Str.split_runs is_word_sep false s) = Str.head_of (Spec.segments s) /\
   List.filter Str.nonempty (List.tl (Str.split_runs is_word_sep false s)) =
   List.filter Str.nonempty (List.tl (Spec.segments s))) /\
  List.filter Str.nonempty (Str.split_runs is_word_sep true s) =
  List.filter Str.nonempty (Spec.segments s).
Proof.
  induction s as [|c s [[IHh IHt] IHr]].
  - repeat split; reflexivity.
  - simpl. change (Spec.is_separator c) with (is_word_sep c).
    destruct (is_word_sep c) eqn:Hc.
    + simpl. repeat split; assumption.
    + destruct (Str.split_runs is_word_sep false s) as [|w ws];
        destruct (Spec.segments s) as [|w' ws']; simpl in *;
        try discriminate; subst; repeat split; try reflexivity;
        try (f_equal; assumption); try assumption.
Qed.

Lemma filter_head_tail (l : list string) :
  l <> [] ->
  List.filter Str.nonempty l =
  (List.filter Str.nonempty [Str.head_of l] ++
   List.filter Str.nonempty (List.tl l))%list.
Proof.
  destruct l as [|w ws]; [congruence|]. intros _. simpl.
  destruct (Str.nonempty w); reflexivity.
Qed.

Lemma split_runs_nonnil (sep : ascii -> bool) (b : bool) (s : string) :
  Str.split_runs sep b s <> [].
Proof.
  revert b. induction s as [|c s IH]; intros b; simpl; [discriminate|].
  destruct (sep c).
  - destruct b; [apply IH | discriminate].
  - destruct (Str.split_runs sep false s); discriminate.
Qed.

Lemma segments_nonnil (s : string) : Spec.segments s <> [].
Proof.
  induction s as [|c s IH]; simpl; [discriminate|].
  destruct (Spec.is_separator c); [discriminate|].
  destruct (Spec.segments s); discriminate.
Qed.

Lemma class_name_refines (n : string) :
  _generate_class_name n = Spec.to_type_identifier n.
Proof.
  unfold _generate_class_name, Spec.to_type_identifier, Str.re_split.
  destruct (split_runs_segments n) as [[Hh Ht] _].
  rewrite (filter_head_tail _ (split_runs_nonnil _ _ _)).
  rewrite (filter_head_tail _ (segments_nonnil n)).
  rewrite Hh, Ht. reflexivity.
Qed.

(** C4.  The derived identifiers are what the stated algorithm gives: the
    slug is the lowered name with every character outside [a-z0-9] turned
    into a hyphen, runs of hyphens collapsed, hyphens stripped at both ends,
    after the tag [mcp-]; the type identifier is the capitalised non-empty
    segments between underscores, hyphens and white space, between [MCP] and
    [Node].  For ["list_directory"] they are ["mcp-list-directory"] and
    ["MCPListDirectoryNode"]. *)
Theorem identifier_derivation :
  (forall n, _generate_node_type n = Spec.to_slug_identifier n) /\
  (forall n, _generate_class_name n = Spec.to_type_identifier n) /\
  _generate_node_type "list_directory" = "mcp-list-directory" /\
  _generate_class_name "list_directory" = "MCPListDirectoryNode".
Proof.
  split; [exact node_type_refines|].
  split; [exact class_name_refines|].
  split; reflexivity.
Qed.

(** ** Type mapping *)

Lemma lookup_with_lookup {A : Type} (f : json -> A) (default : A)
  (k : string) (d : dict) :
  lookup_with f default k d =
  match Py.lookup k d with Some v => f v | None => default end.
Proof.
  induction d as [|[k' v] d IH]; simpl; [reflexivity|].
  destruct (String.eqb k k'); [reflexivity | exact IH].
Qed.

Lemma lookup_height (k : string) (d : dict) (v : json) :
  Py.lookup k d = Some v -> height v < height (JObj d).
Proof.
  simpl. induction d as [|[k' v'] d IH]; simpl; [discriminate|].
  destruct (String.eqb k k').
  - intros [= ->]. lia.
  - intros H. specialize (IH H). lia.
Qed.

(** The frontend mapping, case by case on the tag. *)
Lemma get_typescript_type_by_tag (d : dict) :
  get_typescript_type (JObj d) =
  match tag_of d with
  | TString =>
      match Py.lookup "enum" d with
      | Some enum => enum_union enum
      | None => Ok "string"
      end
  | TNumber | TInteger => Ok "number"
  | TBoolean => Ok "boolean"
  | TArray =>
      let* item_type := get_typescript_type (items_of d) in
      Ok (item_type ++ "[]")
  | TObject => Ok "Record<string, any>"
  | TOther => Ok "any"
  end.
Proof.
  unfold tag_of, items_of. cbn [get_typescript_type].
  rewrite lookup_with_lookup.
  destruct (Py.lookup "type" d) as [[| | | |s| |]|]; try reflexivity.
  unfold Py.eq_str.
  destruct (String.eqb s "string"); [reflexivity|].
  destruct (String.eqb s "number"); [reflexivity|].
  destruct (String.eqb s "integer"); [reflexivity|].
  destruct (String.eqb s "boolean"); [reflexivity|].
  destruct (String.eqb s "array").
  - cbn [orb]. destruct (Py.lookup "items" d); reflexivity.
  - destruct (String.eqb s "object"); reflexivity.
Qed.

(** The backend mapping, case by case on the tag. *)
Lemma get_python_type_by_tag (d : dict) :
  get_python_type (JObj d) =
  match tag_of d with
  | TString => Ok "str"
  | TNumber => Ok "float"
  | TInteger => Ok "int"
  | TBoolean => Ok "bool"
  | TArray =>
      let* item_type := get_python_type (items_of d) in
      Ok ("list[" ++ item_type ++ "]")
  | TObject => Ok "dict[str, Any]"
  | TOther => Ok "Any"
  end.
Proof.
  unfold tag_of, items_of. cbn [get_python_type].
  rewrite lookup_with_lookup.
  destruct (Py.lookup "type" d) as [[| | | |s| |]|]; try reflexivity.
  unfold Py.eq_str.
  destruct (String.eqb s "string"); [reflexivity|].
  destruct (String.eqb s "number"); [reflexivity|].
  destruct (String.eqb s "integer"); [reflexivity|].
  destruct (String.eqb s "boolean"); [reflexivity|].
  destruct (String.eqb s "array").
  - destruct (Py.lookup "items" d); reflexivity.
  - destruct (String.eqb s "object"); reflexivity.
Qed.

Lemma python_total_height (n : nat) :
  forall p, height p <= n -> element_schemas_ok p = true ->
            exists t, get_python_type p = Ok t.
Proof.
  induction n as [|n IH]; intros p Hn Hok;
    destruct p as [| | | | | |d]; try discriminate Hok.
  - simpl in Hn. lia.
  - rewrite get_python_type_by_tag.
    cbn [element_schemas_ok] in Hok.
    destruct (tag_of d); eauto.
    rewrite lookup_with_lookup in Hok. unfold items_of.
    destruct (Py.lookup "items" d) as [v|] eqn:Hv.
    + destruct (IH v) as [t Ht]; [|exact Hok|].
      * apply lookup_height in Hv. lia.
      * rewrite Ht. simpl. eauto.
    + simpl. eauto.
Qed.

Lemma enum_union_iterable (enum : json) :
  iterable enum = true -> exists t, enum_union enum = Ok t.
Proof.
  unfold enum_union. destruct enum; try discriminate; simpl; eauto.
Qed.

Lemma typescript_total_height (n : nat) :
  forall p, height p <= n -> enums_ok p = true ->
            exists t, get_typescript_type p = Ok t.
Proof.
  induction n as [|n IH]; intros p Hn Hok;
    destruct p as [| | | | | |d]; try discriminate Hok.
  - simpl in Hn. lia.
  - rewrite get_typescript_type_by_tag.
    cbn [enums_ok] in Hok.
    destruct (tag_of d); eauto.
    + destruct (Py.lookup "enum" d); eauto using enum_union_iterable.
    + rewrite lookup_with_lookup in Hok. unfold items_of.
      destruct (Py.lookup "items" d) as [v|] eqn:Hv.
      * destruct (IH v) as [t Ht]; [|exact Hok|].
        -- apply lookup_height in Hv. lia.
        -- rewrite Ht. simpl. eauto.
      * simpl. eauto.
Qed.

(** C5, as the code has it.  The frontend mapping looks at the enumeration
    only under the tag [string]: there it gives the union of the quoted
    enum values (and [string] when there is no enumeration).  Under every
    other tag the enumeration is not read: [number] for [number] and
    [integer], [boolean], the mapped element type followed by [[]] for
    [array], [Record<string, any>] for [object], and [any] for an absent or
    unrecognised tag. *)
Theorem typescript_type_mapping (d : dict) :
  get_typescript_type (JObj d) =
  match tag_of d with
  | TString =>
      match Py.lookup "enum" d with
      | Some enum => enum_union enum
      | None => Ok "string"
      end
  | TNumber | TInteger => Ok "number"
  | TBoolean => Ok "boolean"
  | TArray =>
      let* item_type := get_typescript_type (items_of d) in
      Ok (item_type ++ "[]")
  | TObject => Ok "Record<string, any>"
  | TOther => Ok "any"
  end.
Proof. exact (get_typescript_type_by_tag d). Qed.

(** C5 as stated fails: with the tag [integer] an enumeration is present
    and the mapping returns [number], not the union of the enum values. *)
Lemma typescript_enum_ignored_for_integer :
  Py.getitem integer_enum_schema "enum" = Ok (JArr [JInt 1; JInt 2]) /\
  enum_union (JArr [JInt 1; JInt 2]) = Ok "'1' | '2'" /\
  get_typescript_type integer_enum_schema = Ok "number".
Proof. repeat split. Qed.

(** C6, as the code has it.  On a parameter schema whose element schemas
    are objects at every depth of array nesting, the backend mapping
    returns a type expression; so does the frontend mapping when moreover
    the enumeration it reads can be iterated over.  An absent or
    unrecognised tag gives [any] and [Any]. *)
Theorem type_mapping_total (p : json) (H : element_schemas_ok p = true) :
  (exists t, get_python_type p = Ok t) /\
  (enums_ok p = true -> exists t, get_typescript_type p = Ok t) /\
  (forall d, p = JObj d -> tag_of d = TOther ->
     get_typescript_type p = Ok "any" /\ get_python_type p = Ok "Any").
Proof.
  split; [|split].
  - apply (python_total_height (height p)); [lia | exact H].
  - intros He. apply (typescript_total_height (height p)); [lia | exact He].
  - intros d -> Ht.
    rewrite get_typescript_type_by_tag, get_python_type_by_tag, Ht.
    split; reflexivity.
Qed.

(** The mappings on an array of arrays of an unknown type. *)
Lemma type_mapping_total_witness :
  element_schemas_ok nested_array_schema = true /\
  (exists t, get_python_type nested_array_schema = Ok t) /\
  (enums_ok nested_array_schema = true ->
   exists t, get_typescript_type nested_array_schema = Ok t) /\
  (forall d, nested_array_schema = JObj d -> tag_of d = TOther ->
     get_typescript_type nested_array_schema = Ok "any" /\
     get_python_type nested_array_schema = Ok "Any").
Proof.
  split; [reflexivity|].
  apply (type_mapping_total nested_array_schema). reflexivity.
Defined.

(** C6 as stated fails: a schema tagged [array] whose [items] is a list of
    schemas makes both mappings raise [AttributeError]. *)
Lemma type_mapping_raises_on_tuple_items :
  get_typescript_type tuple_items_schema = Raise AttributeError /\
  get_python_type tuple_items_schema = Raise AttributeError.
Proof. split; reflexivity. Qed.

(** ** The schema entity and the flat file *)

Lemma lookup_setitem (k k' : string) (v : json) (d : dict) :
  Py.lookup k (Py.setitem k' v d) =
  if String.eqb k k' then Some v else Py.lookup k d.
Proof.
  induction d as [|[k0 v0] d IH]; simpl.
  - destruct (String.eqb k k'); reflexivity.
  - destruct (String.eqb k' k0) eqn:E0; simpl.
    + apply String.eqb_eq in E0. subst k0.
      destruct (String.eqb k k'); reflexivity.
    + rewrite IH. destruct (String.eqb k k') eqn:E1; [|reflexivity].
      apply String.eqb_eq in E1. subst k'.
      rewrite E0. reflexivity.
Qed.

Lemma init_derived_ok (n d i o a : json) (s : MCPToolSchema) :
  MCPToolSchema_init n d i o a = Ok s ->
  n = JStr (name s) /\ derived_ok s.
Proof.
  destruct n; try discriminate. simpl. intros [= <-].
  repeat split.
Qed.

(** [from_dict] on a dictionary, by the lookups it makes. *)
Lemma from_dict_lookup (d : dict) :
  from_dict (JObj d) =
  match Py.lookup "name" d with
  | Some n =>
      MCPToolSchema_init n
        (match Py.lookup "description" d with Some v => v | None => JNull end)
        (match Py.lookup "input_schema" d with
         | Some v => v | None => empty_dict end)
        (match Py.lookup "output_schema" d with Some v => v | None => JNull end)
        (match Py.lookup "annotations" d with Some v => v | None => JNull end)
  | None => Raise (KeyError "name")
  end.
Proof.
  unfold from_dict. simpl. destruct (Py.lookup "name" d); reflexivity.
Qed.

Lemma from_dict_to_dict (s : MCPToolSchema) :
  derived_ok s -> from_dict (to_dict s) = Ok s.
Proof.
  intros [Hn Hc]. destruct s as [n d i o a nt cn]. simpl in *. subst.
  reflexivity.
Qed.

Lemma mapM_from_dict (tools : list MCPToolSchema) :
  Forall derived_ok tools ->
  mapM from_dict (List.map to_dict tools) = Ok tools.
Proof.
  induction 1 as [|s tools Hs _ IH]; [reflexivity|].
  cbn [List.map mapM]. rewrite (from_dict_to_dict s Hs).
  cbn [bind]. rewrite IH. reflexivity.
Qed.

(** Every schema that reaches an extractor or comes out of a flat file went
    through the constructor. *)
Lemma mapM_derived_ok (f : json -> result MCPToolSchema)
  (records : list json) (tools : list MCPToolSchema) :
  (forall x s, f x = Ok s -> derived_ok s) ->
  mapM f records = Ok tools -> Forall derived_ok tools.
Proof.
  intros Hf. revert tools.
  induction records as [|x records IH]; intros tools; cbn [mapM].
  - intros [= <-]. constructor.
  - destruct (f x) as [s|e] eqn:Hx; cbn [bind]; [|intros Hm; discriminate Hm].
    destruct (mapM f records) as [ss|e]; cbn [bind];
      [|intros Hm; discriminate Hm].
    intros [= <-]. constructor; [exact (Hf x s Hx) | apply IH; reflexivity].
Qed.

Lemma from_dict_derived_ok (data : json) (s : MCPToolSchema) :
  from_dict data = Ok s -> derived_ok s.
Proof.
  destruct data as [| | | | | |d]; try (intros Hx; discriminate Hx).
  rewrite from_dict_lookup.
  destruct (Py.lookup "name" d); [|intros Hx; discriminate Hx].
  intros Hi. exact (proj2 (init_derived_ok _ _ _ _ _ _ Hi)).
Qed.

Lemma tool_of_record_derived_ok (tool : json) (s : MCPToolSchema) :
  tool_of_record tool = Ok s -> derived_ok s.
Proof.
  destruct tool as [| | | | | |d]; try (intros Hx; discriminate Hx).
  unfold tool_of_record. cbn [Py.getitem].
  destruct (Py.lookup "name" d); cbn [bind]; [|intros Hx; discriminate Hx].
  intros Hi. exact (proj2 (init_derived_ok _ _ _ _ _ _ Hi)).
Qed.

Lemma from_json_file_derived_ok (file_path : string) (fs : gmap string file)
  (tools : list MCPToolSchema) :
  from_json_file file_path fs = Ok tools -> Forall derived_ok tools.
Proof.
  unfold from_json_file.
  destruct (json_load file_path fs) as [data|e]; cbn [bind];
    [|intros Hx; discriminate Hx].
  destruct (match data with JArr _ => Ok data | _ => Py.get data "tools" (JArr []) end)
    as [tools_data|e]; cbn [bind]; [|intros Hx; discriminate Hx].
  destruct (Py.iter tools_data) as [records|e]; cbn [bind];
    [|intros Hx; discriminate Hx].
  apply mapM_derived_ok. exact from_dict_derived_ok.
Qed.

Lemma tools_of_result_derived_ok (result_ : json)
  (tools : list MCPToolSchema) :
  tools_of_result result_ = Ok tools -> Forall derived_ok tools.
Proof.
  unfold tools_of_result.
  destruct (Py.get result_ "result" empty_dict) as [inner|e]; cbn [bind];
    [|intros Hx; discriminate Hx].
  destruct (Py.get inner "tools" (JArr [])) as [tools_data|e]; cbn [bind];
    [|intros Hx; discriminate Hx].
  destruct (Py.iter tools_data) as [records|e]; cbn [bind];
    [|intros Hx; discriminate Hx].
  apply mapM_derived_ok. exact tool_of_record_derived_ok.
Qed.

(** C3.  Saving the tools of an extractor and loading the file gives the
    same list back: as many schemas, each with the fields it had, the
    derived ones included.  The schemas are instances as the constructor
    leaves them ([derived_ok]). *)
Theorem save_load_round_trip (self : MCPSchemaExtractor)
  (file_path : string) (fs : gmap string file)
  (H : Forall derived_ok (_tools self)) :
  from_json_file file_path (save_schemas self file_path fs) =
  Ok (_tools self).
Proof.
  unfold from_json_file, save_schemas, json_load, json_dump.
  rewrite lookup_insert_eq. cbn [bind Py.iter].
  apply mapM_from_dict. exact H.
Qed.

(** Two schemas saved and loaded again. *)
Lemma save_load_round_trip_witness :
  Forall derived_ok [list_directory_schema; tampered_loaded] /\
  from_json_file "schemas.json"
    (save_schemas
       (set_tools (MCPSchemaExtractor_init "http://localhost:3000/sse" None
                     (JFloat "30.0"))
          [list_directory_schema; tampered_loaded])
       "schemas.json" ∅) =
  Ok [list_directory_schema; tampered_loaded].
Proof.
  assert (Hinv : Forall derived_ok [list_directory_schema; tampered_loaded]).
  { repeat constructor. }
  split; [exact Hinv|].
  exact (save_load_round_trip
           (set_tools (MCPSchemaExtractor_init "http://localhost:3000/sse"
                         None (JFloat "30.0"))
              [list_directory_schema; tampered_loaded])
           "schemas.json" ∅ Hinv).
Defined.

(** C9.  A record that [from_dict] accepts gives a schema whose name is the
    record's and whose identifiers are derived from that name; whatever the
    record stores under [node_type] and [class_name] makes no
    difference. *)
Theorem from_dict_recomputes_derived (data : json) (s : MCPToolSchema)
  (H : from_dict data = Ok s) :
  Py.getitem data "name" = Ok (JStr (name s)) /\
  node_type s = _generate_node_type (name s) /\
  class_name s = _generate_class_name (name s) /\
  (forall d v w, data = JObj d ->
     from_dict
       (JObj (Py.setitem "node_type" v (Py.setitem "class_name" w d))) =
     Ok s).
Proof.
  destruct data as [| | | | | |d]; try discriminate H.
  rewrite from_dict_lookup in H.
  destruct (Py.lookup "name" d) as [n|] eqn:Hn; [|discriminate H].
  destruct (init_derived_ok _ _ _ _ _ _ H) as [-> [Hnt Hcn]].
  repeat split; try assumption.
  - simpl. rewrite Hn. reflexivity.
  - intros d' v w [= <-]. rewrite from_dict_lookup.
    rewrite !lookup_setitem. simpl. rewrite Hn. exact H.
Qed.

(** A record with identifiers that do not belong to its name. *)
Lemma from_dict_recomputes_derived_witness :
  from_dict tampered_record = Ok tampered_loaded /\
  Py.getitem tampered_record "name" = Ok (JStr (name tampered_loaded)) /\
  node_type tampered_loaded = _generate_node_type (name tampered_loaded) /\
  class_name tampered_loaded = _generate_class_name (name tampered_loaded) /\
  (forall d v w, tampered_record = JObj d ->
     from_dict
       (JObj (Py.setitem "node_type" v (Py.setitem "class_name" w d))) =
     Ok tampered_loaded).
Proof.
  split; [reflexivity|].
  apply (from_dict_recomputes_derived tampered_record tampered_loaded).
  reflexivity.
Defined.

(** ** Defaults in the generated files *)

(** The manifest entry keeps what is stored under [default]. *)
Lemma input_def_default (required : json) (prop_name : string) (d : dict)
  (v : json) (fields : dict) :
  Py.lookup "default" d = Some v ->
  input_def required prop_name (JObj d) = Ok (JObj fields) ->
  Py.lookup "default" fields = Some v.
Proof.
  intros Hd. unfold input_def. simpl. rewrite Hd.
  destruct (Py.lookup "description" d); simpl;
    destruct (Py.contains prop_name required) as [[]|]; simpl;
    try discriminate;
    destruct (Py.lookup "enum" d); simpl; intros [= <-]; reflexivity.
Qed.

Lemma input_def_list_ok (names : list json) (prop_name : string) (d : dict) :
  exists fields, input_def (JArr names) prop_name (JObj d) = Ok (JObj fields).
Proof.
  unfold input_def. simpl.
  destruct (Py.lookup "description" d); simpl;
    destruct (existsb (fun v => Py.eq_str v prop_name) names); simpl;
    destruct (Py.lookup "default" d); simpl;
    destruct (Py.lookup "enum" d); simpl; eauto.
Qed.

Lemma default_entry_absent (prop_name : string) (d : dict) :
  Py.lookup "default" d = None ->
  default_entry prop_name (JObj d) = Ok (fallback_entry prop_name d).
Proof.
  intros Hd. unfold default_entry, fallback_entry. simpl. rewrite Hd.
  destruct (Py.eq_str _ "boolean"); reflexivity.
Qed.

(** C10.  A parameter whose schema stores [null] under [default] gets, in
    the default-values module, the entry of a parameter with no default:
    [false] when its type is [boolean], the empty text otherwise.  The
    manifest entry of the same parameter carries the stored [null]. *)
Theorem null_default_is_no_default (prop_name : string) (d : dict)
  (H : Py.lookup "default" d = Some JNull) :
  default_entry prop_name (JObj d) = Ok (fallback_entry prop_name d) /\
  (forall d0, Py.lookup "default" d0 = None ->
              Py.lookup "type" d0 = Py.lookup "type" d ->
              default_entry prop_name (JObj d0) =
              default_entry prop_name (JObj d)) /\
  (forall required fields,
     input_def required prop_name (JObj d) = Ok (JObj fields) ->
     Py.lookup "default" fields = Some JNull) /\
  (forall names, exists fields,
     input_def (JArr names) prop_name (JObj d) = Ok (JObj fields)).
Proof.
  assert (Hentry :
    default_entry prop_name (JObj d) = Ok (fallback_entry prop_name d)).
  { unfold default_entry, fallback_entry. simpl. rewrite H.
    destruct (Py.eq_str _ "boolean"); reflexivity. }
  split; [exact Hentry|]. split; [|split].
  - intros d0 Hd0 Ht. rewrite Hentry, (default_entry_absent _ _ Hd0).
    unfold fallback_entry. rewrite Ht. reflexivity.
  - intros required fields. apply input_def_default. exact H.
  - intros names. apply input_def_list_ok.
Qed.

(** A boolean parameter with a stored [null] default. *)
Lemma null_default_is_no_default_witness :
  Py.lookup "default" null_default_schema = Some JNull /\
  default_entry "verbose" (JObj null_default_schema) =
    Ok "    verbose: false," /\
  input_def (JArr []) "verbose" (JObj null_default_schema) =
    Ok (JObj [ ("type", JStr "boolean"); ("title", JStr "Verbose");
               ("default", JNull) ]).
Proof.
  split; [reflexivity|].
  split.
  - exact (proj1 (null_default_is_no_default "verbose" null_default_schema
                    eq_refl)).
  - reflexivity.
Defined.

(** What [_generate_node_py] puts for the default of a parameter, by what
    the schema stores. *)
Lemma default_text_cases (d : dict) :
  default_text (JObj d) =
  Ok match Py.lookup "default" d with
     | None => "''''"
     | Some (JStr s) => "'" ++ s ++ "'"
     | Some JNull => "None"
     | Some v => Py.str v
     end.
Proof.
  unfold default_text. simpl.
  destruct (Py.lookup "default" d) as [[]|]; reflexivity.
Qed.

(** C1, at the schema of the generated example.  The parameter [path] has
    no default; the text emitted for its default is the two-quote marker
    put between quotes once more, four quotes, and the extraction line of
    the generated file reads as below. *)
Theorem absent_default_is_requoted :
  default_text (JObj [("type", JStr "string")]) = Ok "''''" /\
  (exists text,
     _generate_node_py list_directory_schema "" = Ok text /\
     Str.contains
       (String Char.newline
          "        path = self.get_input('path', '''')" ++
        String Char.newline EmptyString)
       text = true).
Proof.
  split; [reflexivity|].
  eexists. split; [reflexivity|]. vm_compute. reflexivity.
Qed.

(** ** The transport variants *)

Lemma io_bind_lift_ok {A B : Type} (a : A) (k : A -> io B) :
  io_bind (lift (Ok a)) k = k a.
Proof. unfold io_bind, lift. destruct (k a). reflexivity. Qed.

(** C7, as the code has it.  When [urlparse] accepts the URL, the handshake
    variant is taken if and only if the text [/sse] occurs somewhere in the
    URL or the path of the URL ends with [/sse]; the direct variant is
    taken otherwise. *)
Theorem variant_selection (url : string) (parsed : Urllib.ParseResult)
  (H : Urllib.urlparse url = Ok parsed) :
  select_variant url =
    Ok (if Str.contains "/sse" url || Str.endswith "/sse" (Urllib.path parsed)
        then Handshake else Direct) /\
  (forall network json_loads self,
     server_url self = url ->
     _extract_tools_standalone network json_loads self =
     if Str.contains "/sse" url || Str.endswith "/sse" (Urllib.path parsed)
     then _extract_via_sse network json_loads self
     else _extract_via_http network self).
Proof.
  assert (Hsel : select_variant url =
    Ok (if Str.contains "/sse" url || Str.endswith "/sse" (Urllib.path parsed)
        then Handshake else Direct)).
  { unfold select_variant. rewrite H. cbn [bind].
    destruct (Str.contains "/sse" url || Str.endswith "/sse" (Urllib.path parsed));
      reflexivity. }
  split; [exact Hsel|].
  intros network json_loads self Hurl.
  unfold _extract_tools_standalone. rewrite Hurl, Hsel.
  rewrite io_bind_lift_ok.
  destruct (Str.contains "/sse" url || Str.endswith "/sse" (Urllib.path parsed));
    reflexivity.
Qed.

(** The selection for a URL with [/sse] in its query. *)
Lemma variant_selection_witness :
  Urllib.urlparse sse_in_query_url =
    Ok {| Urllib.scheme := "http"; Urllib.netloc := "localhost:3000";
          Urllib.path := "/mcp" |} /\
  select_variant sse_in_query_url = Ok Handshake.
Proof.
  split; [reflexivity|].
  exact (proj1 (variant_selection sse_in_query_url
                  {| Urllib.scheme := "http";
                     Urllib.netloc := "localhost:3000";
                     Urllib.path := "/mcp" |} eq_refl)).
Defined.

(** C7 as stated fails: the path of this URL is [/mcp], which neither ends
    with [/sse] nor has it anywhere; the text [/sse] stands in the query,
    and the code opens the event stream. *)
Lemma variant_by_whole_url :
  Urllib.urlparse sse_in_query_url =
    Ok {| Urllib.scheme := "http"; Urllib.netloc := "localhost:3000";
          Urllib.path := "/mcp" |} /\
  Str.endswith "/sse" "/mcp" = false /\
  Str.contains "/sse" "/mcp" = false /\
  select_variant sse_in_query_url = Ok Handshake /\
  fst (_extract_tools_standalone unreachable_network toy_json_loads
         (MCPSchemaExtractor_init sse_in_query_url None (JFloat "30.0"))) =
    [ StreamGet sse_in_query_url [("Accept", JStr "text/event-stream")]
        (JFloat "30.0") ].
Proof. repeat split. Qed.

Section Handshake.

Variable network : Request -> result Response.
Variable json_loads : string -> result json.

(** The loop ends with [None], or with the [endpoint] of an event. *)
Lemma read_endpoint_ok (lines : list string) (v : json) :
  read_endpoint json_loads lines = Ok v ->
  v = JNull \/
  exists line, In line lines /\ endpoint_event json_loads line v.
Proof.
  induction lines as [|line rest IH]; cbn [read_endpoint].
  - intros [= <-]. left. reflexivity.
  - destruct (Str.startswith "data: " line) eqn:Hs.
    + destruct (json_loads (Str.drop 6 line)) as [data|e] eqn:Hd;
        cbn [bind]; [|intros Hx; discriminate Hx].
      destruct (Py.contains "endpoint" data) as [[]|e] eqn:Hc;
        cbn [bind]; [| |intros Hx; discriminate Hx].
      * intros Hg. right. exists line. split; [left; reflexivity|].
        split; [exact Hs|].
        destruct data as [| | | | | |d]; try discriminate Hg.
        exists d. split; [exact Hd|].
        simpl in Hg. destruct (Py.lookup "endpoint" d); [|discriminate].
        injection Hg as ->. reflexivity.
      * intros Hr. destruct (IH Hr) as [->|[l [Hin He]]];
          [left; reflexivity|].
        right. exists l. split; [right; exact Hin | exact He].
    + intros Hr. destruct (IH Hr) as [->|[l [Hin He]]];
        [left; reflexivity|].
      right. exists l. split; [right; exact Hin | exact He].
Qed.

(** A stream that is read to its end leaves [endpoint_url] at [None]. *)
Lemma read_endpoint_passed (lines : list string) :
  Forall (passed_over json_loads) lines ->
  read_endpoint json_loads lines = Ok JNull.
Proof.
  induction 1 as [|line rest Hl _ IH]; cbn [read_endpoint]; [reflexivity|].
  destruct (Str.startswith "data: " line) eqn:Hs; [|exact IH].
  destruct (Hl Hs) as [data [Hd Hc]].
  rewrite Hd. cbn [bind]. rewrite Hc. cbn [bind]. exact IH.
Qed.

(** The [tools/list] call sends one request, to the URL it is given. *)
Lemma post_tools_list_log (self : MCPSchemaExtractor) (url : json) :
  fst (post_tools_list network self url) =
  [ Post url
      (Py.setitem "Content-Type" (JStr "application/json") (headers self))
      (timeout self) tools_list_body ].
Proof.
  unfold post_tools_list, send, io_bind, lift.
  destruct (network _) as [response|e]; [|reflexivity].
  destruct (raise_for_status response); [|reflexivity].
  destruct (json_body response); [|reflexivity].
  destruct (tools_of_result _); reflexivity.
Qed.

(** The handshake, by the answer to the stream request and the value the
    loop ends with. *)
Lemma extract_via_sse_cases (self : MCPSchemaExtractor) :
  _extract_via_sse network json_loads self =
  match network (sse_request self) with
  | Raise e => ([sse_request self], Raise e)
  | Ok response =>
      if is_success response then
        match read_endpoint json_loads (iter_lines response) with
        | Raise e => ([sse_request self], Raise e)
        | Ok endpoint_url =>
            if Py.truthy endpoint_url then
              (sse_request self
                 :: fst (post_tools_list network self endpoint_url),
               snd (post_tools_list network self endpoint_url))
            else
              ([sse_request self],
               Raise (ValueError "No endpoint URL received from SSE"))
        end
      else ([sse_request self], Raise HTTPStatusError)
  end.
Proof.
  unfold _extract_via_sse, send, sse_request, io_bind, lift,
    raise_for_status.
  destruct (network _) as [response|e]; [|reflexivity].
  destruct (is_success response); [|reflexivity].
  destruct (read_endpoint json_loads (iter_lines response))
    as [endpoint_url|e]; [|reflexivity].
  destruct (Py.truthy endpoint_url); cbn [negb]; [|reflexivity].
  destruct (post_tools_list network self endpoint_url). reflexivity.
Qed.

End Handshake.

(** C8.  When the event stream is read to its end and no event carries an
    [endpoint], the handshake raises the error that says so, and the only
    request sent is the one that opened the stream.  Whatever the stream
    holds, without an event that carries an [endpoint] field the handshake
    ends with an exception and sends no discovery request; and a discovery
    request that is sent goes to the [endpoint] of an event of the
    stream. *)
Theorem handshake_needs_endpoint (network : Request -> result Response)
  (json_loads : string -> result json) (self : MCPSchemaExtractor) :
  (forall response,
     network (sse_request self) = Ok response ->
     is_success response = true ->
     Forall (passed_over json_loads) (iter_lines response) ->
     _extract_via_sse network json_loads self =
     ([sse_request self],
      Raise (ValueError "No endpoint URL received from SSE"))) /\
  (forall response,
     network (sse_request self) = Ok response ->
     (forall line endpoint, In line (iter_lines response) ->
                            ~ endpoint_event json_loads line endpoint) ->
     exists e, _extract_via_sse network json_loads self =
               ([sse_request self], Raise e)) /\
  (forall url hdrs tmo body,
     In (Post url hdrs tmo body)
        (fst (_extract_via_sse network json_loads self)) ->
     exists response line,
       network (sse_request self) = Ok response /\
       In line (iter_lines response) /\
       endpoint_event json_loads line url) /\
  (forall self',
     snd (_extract_via_sse network json_loads self) = Ok self' ->
     exists url hdrs tmo body,
       In (Post url hdrs tmo body)
          (fst (_extract_via_sse network json_loads self))).
Proof.
  rewrite extract_via_sse_cases.
  split; [|split; [|split]].
  - intros response -> -> Hp. rewrite (read_endpoint_passed _ _ Hp).
    reflexivity.
  - intros response -> Hnone. destruct (is_success response); [|eauto].
    destruct (read_endpoint json_loads (iter_lines response)) as [v|e] eqn:Hr;
      [|eauto].
    destruct (read_endpoint_ok _ _ _ Hr) as [->|[line [Hin He]]]; [eauto|].
    destruct (Hnone line v Hin He).
  - intros url hdrs tmo body.
    destruct (network (sse_request self)) as [response|e];
      [|intros [Hin|[]]; discriminate Hin].
    destruct (is_success response);
      [|intros [Hin|[]]; discriminate Hin].
    destruct (read_endpoint json_loads (iter_lines response)) as [v|e] eqn:Hr;
      [|intros [Hin|[]]; discriminate Hin].
    destruct (Py.truthy v) eqn:Ht; [|intros [Hin|[]]; discriminate Hin].
    cbn [fst]. rewrite post_tools_list_log.
    intros [Hin|[Hin|[]]]; [discriminate Hin|].
    injection Hin as <- _ _ _.
    destruct (read_endpoint_ok _ _ _ Hr) as [->|[line [Hl He]]];
      [discriminate Ht|].
    exists response, line. repeat split; assumption || apply He.
  - intros self'.
    destruct (network (sse_request self)) as [response|e];
      [|intros Hx; discriminate Hx].
    destruct (is_success response); [|intros Hx; discriminate Hx].
    destruct (read_endpoint json_loads (iter_lines response)) as [v|e];
      [|intros Hx; discriminate Hx].
    destruct (Py.truthy v); [|intros Hx; discriminate Hx].
    intros _. cbn [fst]. rewrite post_tools_list_log.
    do 4 eexists. right. left. reflexivity.
Qed.

(** The handshake against a stream that ends without an [endpoint]. *)
Lemma handshake_needs_endpoint_witness :
  _extract_via_sse silent_network toy_json_loads
    (MCPSchemaExtractor_init "http://localhost:3000/sse" None (JFloat "30.0")) =
  ([sse_request
      (MCPSchemaExtractor_init "http://localhost:3000/sse" None
         (JFloat "30.0"))],
   Raise (ValueError "No endpoint URL received from SSE")).
Proof.
  refine (proj1 (handshake_needs_endpoint silent_network toy_json_loads
                   (MCPSchemaExtractor_init "http://localhost:3000/sse" None
                      (JFloat "30.0")))
            {| is_success := true;
               iter_lines := [": ping"; "event: message"; "data: {}"];
               json_body := Raise JSONDecodeError |} eq_refl eq_refl _).
  repeat constructor; intros Hs; try discriminate Hs.
  exists (JObj []). split; reflexivity.
Defined.

(** ** Regeneration *)

Lemma write_all_app (fs : gmap string file) (xs ys : list (string * file)) :
  write_all (xs ++ ys)%list fs = write_all ys (write_all xs fs).
Proof. unfold write_all. apply List.fold_left_app. Qed.

Lemma written_snoc (files : list (string * file)) (q : string) (f : file)
  (p : string) :
  written (files ++ [(q, f)])%list p =
  if String.eqb p q then Some f else written files p.
Proof. unfold written. rewrite List.fold_left_app. reflexivity. Qed.

(** A path holds what was written to it last, or what it held before. *)
Lemma lookup_write_all (files : list (string * file))
  (fs : gmap string file) (p : string) :
  write_all files fs !! p =
  match written files p with Some f => Some f | None => fs !! p end.
Proof.
  induction files as [|[q f] files IH] using List.rev_ind; [reflexivity|].
  rewrite write_all_app, written_snoc. cbn [write_all List.fold_left fst snd].
  destruct (String.eqb p q) eqn:E.
  - apply String.eqb_eq in E. subst q. apply lookup_insert_eq.
  - apply String.eqb_neq in E. rewrite lookup_insert_ne by congruence.
    exact IH.
Qed.

Lemma write_all_twice (files : list (string * file)) (fs : gmap string file) :
  write_all files (write_all files fs) = write_all files fs.
Proof.
  apply map_eq. intros p. rewrite !lookup_write_all.
  destruct (written files p); reflexivity.
Qed.

Lemma written_in (files : list (string * file)) (p : string) :
  In p (List.map fst files) -> exists f, written files p = Some f.
Proof.
  induction files as [|[q f] files IH] using List.rev_ind; [intros []|].
  rewrite List.map_app, List.in_app_iff, written_snoc. cbn [List.map fst In].
  destruct (String.eqb p q) eqn:E; [eauto|].
  intros [H|[H|[]]]; [exact (IH H)|].
  subst q. rewrite String.eqb_refl in E. discriminate E.
Qed.

Lemma write_only_pure {A : Type} (r : result A) : write_only (pure r).
Proof. exists [], r. reflexivity. Qed.

Lemma write_only_ret {A : Type} (a : A) : write_only (gen_ret a).
Proof. exists [], (Ok a). reflexivity. Qed.

Lemma write_only_write_text (path content : string) :
  write_only (effect (write_text path content)).
Proof. exists [(path, Text content)], (Ok tt). reflexivity. Qed.

Lemma write_only_json_dump (path : string) (document : json) :
  write_only (effect (json_dump path document)).
Proof. exists [(path, Json document)], (Ok tt). reflexivity. Qed.

Lemma write_only_bind {A B : Type} (m : gen A) (k : A -> gen B) :
  write_only m -> (forall a, write_only (k a)) -> write_only (gen_bind m k).
Proof.
  intros [files [r Hm]] Hk. destruct r as [a|e].
  - destruct (Hk a) as [files' [r' Hk']].
    exists (files ++ files')%list, r'. intros fs.
    unfold gen_bind. rewrite Hm, Hk', write_all_app. reflexivity.
  - exists files, (Raise e). intros fs.
    unfold gen_bind. rewrite Hm. reflexivity.
Qed.

Lemma write_only_write_files (dir : string) (files : list (string * string)) :
  write_only (write_files dir files).
Proof.
  induction files as [|[filename content] files IH]; cbn [write_files].
  - apply write_only_ret.
  - apply write_only_bind; [apply write_only_write_text | intros _; exact IH].
Qed.

Create HintDb gen.
#[local] Hint Resolve write_only_pure write_only_ret write_only_write_text
  write_only_json_dump write_only_write_files : gen.

Lemma write_only_generate (self : CustomNodeGenerator)
  (schema : MCPToolSchema) (server_url_ : string) :
  write_only (generate self schema server_url_).
Proof.
  unfold generate, _generate_manifest, _generate_backend, _generate_frontend,
    mkdir.
  repeat (apply write_only_bind; [|intros ?]); auto with gen.
Qed.

(** What a successful run writes, file by file. *)
Lemma generate_ok_paths (self : CustomNodeGenerator) (schema : MCPToolSchema)
  (server_url_ : string) (files : list (string * file)) (dir : string) :
  (forall fs, generate self schema server_url_ fs =
              (write_all files fs, Ok dir)) ->
  exists others,
    length others = 9 /\
    List.map fst others = bundle_paths self schema /\
    forall fs, write_all files fs = write_all others fs.
Proof.
  intros Hgen.
  unfold generate, _generate_manifest, _generate_backend, _generate_frontend,
    mkdir, gen_bind, gen_ret, pure, effect in Hgen.
  destruct (manifest_of schema) as [manifest|e];
    [|specialize (Hgen ∅); discriminate Hgen].
  destruct (_generate_node_py schema server_url_) as [node_code|e];
    [|specialize (Hgen ∅); discriminate Hgen].
  unfold frontend_files in Hgen.
  destruct (_generate_index_ts schema) as [f1|e];
    [|specialize (Hgen ∅); discriminate Hgen].
  destruct (_generate_types_ts schema) as [f2|e];
    [|specialize (Hgen ∅); discriminate Hgen].
  destruct (_generate_node_tsx schema) as [f3|e];
    [|specialize (Hgen ∅); discriminate Hgen].
  destruct (_generate_panel_tsx schema) as [f4|e];
    [|specialize (Hgen ∅); discriminate Hgen].
  destruct (_generate_use_config_ts schema) as [f5|e];
    [|specialize (Hgen ∅); discriminate Hgen].
  destruct (_generate_default_ts schema) as [f6|e];
    [|specialize (Hgen ∅); discriminate Hgen].
  cbn in Hgen.
  eexists [ (_, Json manifest); (_, Text ""); (_, Text node_code);
            (_, Text f1); (_, Text f2); (_, Text f3); (_, Text f4);
            (_, Text f5); (_, Text f6) ].
  split; [reflexivity|]. split; [reflexivity|].
  intros fs. specialize (Hgen fs). injection Hgen as Hfs. symmetry. exact Hfs.
Qed.

(** The run for the schema of the generated example succeeds. *)
Example generate_list_directory :
  snd (generate {| output_dir := "nodes" |} list_directory_schema "" ∅) =
  Ok "nodes/mcp-list-directory".
Proof. vm_compute. reflexivity. Qed.

(** C2.  A run of [generate] is a sequence of writes that depends on the
    schema, the endpoint and the output directory only.  Run again on what
    the first run left, it leaves every file as it is and ends the same
    way; from any two file systems, the files it writes get the same
    contents; and a run that succeeds writes the nine files of the bundle.
    (The manifest is held as the document handed to [json.dump].) *)
Theorem generate_twice_identical (self : CustomNodeGenerator)
  (schema : MCPToolSchema) (server_url_ : string) :
  exists (files : list (string * file)) (r : result string),
    (forall fs, generate self schema server_url_ fs = (write_all files fs, r)) /\
    (forall fs,
       generate self schema server_url_
         (fst (generate self schema server_url_ fs)) =
       generate self schema server_url_ fs) /\
    (forall fs fs' p,
       In p (List.map fst files) ->
       is_Some (fst (generate self schema server_url_ fs) !! p) /\
       fst (generate self schema server_url_ fs) !! p =
       fst (generate self schema server_url_ fs') !! p) /\
    (forall dir, r = Ok dir ->
       dir = joinpath (output_dir self) (node_type schema) /\
       exists written_files,
         List.map fst written_files = bundle_paths self schema /\
         forall fs, fst (generate self schema server_url_ fs) =
                    write_all written_files fs).
Proof.
  destruct (write_only_generate self schema server_url_) as [files [r Hgen]].
  exists files, r. split; [exact Hgen|]. split; [|split].
  - intros fs. rewrite !Hgen. cbn [fst]. rewrite write_all_twice. reflexivity.
  - intros fs fs' p Hp. rewrite !Hgen. cbn [fst]. rewrite !lookup_write_all.
    destruct (written_in files p Hp) as [f ->]. split; [eauto | reflexivity].
  - intros dir ->. split.
    + specialize (Hgen ∅). revert Hgen.
      unfold generate, gen_bind, gen_ret.
      destruct (mkdir _ ∅) as [fs0 [|]]; [|discriminate].
      destruct (_generate_manifest _ _ fs0) as [fs1 [|]]; [|discriminate].
      destruct (_generate_backend _ _ _ fs1) as [fs2 [|]]; [|discriminate].
      destruct (_generate_frontend _ _ fs2) as [fs3 [|]]; [|discriminate].
      intros [= _ <-]. reflexivity.
    + destruct (generate_ok_paths self schema server_url_ files dir Hgen)
        as [others [_ [Hpaths Hsame]]].
      exists others. split; [exact Hpaths|].
      intros fs. rewrite Hgen. cbn [fst]. apply Hsame.
Qed.

(** ** More on the identifiers *)

Lemma sub_lower_slug_char (c : ascii) :
  slug_char (if is_alnum (Char.lower c) then Char.lower c else Char.hyphen)
  = true.
Proof. destruct c as [[] [] [] [] [] [] [] []]; reflexivity. Qed.

Lemma all_chars_sub_lower (s : string) :
  all_chars slug_char (sub_non_alnum (Str.lower s)) = true.
Proof.
  induction s as [|c s IH]; [reflexivity|].
  unfold sub_non_alnum in *. cbn [Str.lower Str.map all_chars].
  rewrite sub_lower_slug_char. exact IH.
Qed.

(** [squeeze], one character at a time. *)
Lemma squeeze_cons (p : ascii -> bool) (c : ascii) (s : string) :
  Str.squeeze p (String c s) =
  if p c && first_in p s
  then Str.squeeze p s else String c (Str.squeeze p s).
Proof.
  cbn [Str.squeeze]. destruct (p c); [|reflexivity].
  destruct s as [|d s]; [reflexivity|]. cbn [first_in andb].
  destruct (p d); reflexivity.
Qed.

Lemma first_in_squeeze (p : ascii -> bool) (s : string) :
  first_in p (Str.squeeze p s) = first_in p s.
Proof.
  induction s as [|c s IH]; [reflexivity|].
  rewrite squeeze_cons. cbn [first_in].
  destruct (p c) eqn:Hc; cbn [andb]; [|cbn [first_in]; exact Hc].
  destruct (first_in p s) eqn:Hs; [exact IH|].
  cbn [first_in]. exact Hc.
Qed.

Lemma all_chars_squeeze (q p : ascii -> bool) (s : string) :
  all_chars q s = true -> all_chars q (Str.squeeze p s) = true.
Proof.
  induction s as [|c s IH]; [reflexivity|].
  cbn [all_chars]. intros [Hc Hs]%andb_prop. rewrite squeeze_cons.
  destruct (p c && first_in p s); [exact (IH Hs)|].
  cbn [all_chars]. rewrite Hc. exact (IH Hs).
Qed.

Lemma all_chars_lstrip (q p : ascii -> bool) (s : string) :
  all_chars q s = true -> all_chars q (Str.lstrip p s) = true.
Proof.
  induction s as [|c s IH]; [reflexivity|].
  intros H. cbn [Str.lstrip]. destruct (p c); [|exact H].
  cbn [all_chars] in H. apply andb_prop in H. exact (IH (proj2 H)).
Qed.

(** What [rstrip] returns is the head of the text. *)
Lemma rstrip_prefix (p : ascii -> bool) (s : string) :
  exists t, s = Str.rstrip p s ++ t.
Proof.
  induction s as [|c s [t Ht]]; [exists EmptyString; reflexivity|].
  cbn [Str.rstrip]. destruct (Str.rstrip p s) as [|d r] eqn:Hr.
  - destruct (p c).
    + exists (String c s). reflexivity.
    + exists s. reflexivity.
  - exists t. rewrite Ht at 1. reflexivity.
Qed.

Lemma append_cons (c : ascii) (a b : string) :
  String c a ++ b = String c (a ++ b).
Proof. reflexivity. Qed.

Lemma all_chars_app (q : ascii -> bool) (a b : string) :
  all_chars q (a ++ b) = all_chars q a && all_chars q b.
Proof.
  induction a as [|c a IH]; [reflexivity|].
  rewrite append_cons. cbn [all_chars]. rewrite IH. apply andb_assoc.
Qed.

Lemma all_chars_rstrip (q p : ascii -> bool) (s : string) :
  all_chars q s = true -> all_chars q (Str.rstrip p s) = true.
Proof.
  destruct (rstrip_prefix p s) as [t Ht]. intros H.
  rewrite Ht, all_chars_app in H. apply andb_prop in H. exact (proj1 H).
Qed.

Lemma startswith_app (x a t : string) :
  Str.startswith x a = true -> Str.startswith x (a ++ t) = true.
Proof.
  revert a. induction x as [|c x IH]; intros a; [reflexivity|].
  destruct a as [|d a]; [discriminate|]. rewrite append_cons.
  cbn [Str.startswith].
  intros [H1 H2]%andb_prop. rewrite H1. exact (IH a H2).
Qed.

Lemma contains_app_l (x a t : string) :
  Str.contains x a = true -> Str.contains x (a ++ t) = true.
Proof.
  induction a as [|c a IH].
  - cbn [Str.contains]. rewrite orb_false_r. intros H.
    destruct x; [|discriminate H]. destruct t; reflexivity.
  - rewrite append_cons.
    change (Str.contains x (String c a))
      with (Str.startswith x (String c a) || Str.contains x a).
    change (Str.contains x (String c (a ++ t)))
      with (Str.startswith x (String c (a ++ t)) || Str.contains x (a ++ t)).
    intros [H|H]%orb_prop.
    + rewrite <- append_cons, (startswith_app _ _ t H). reflexivity.
    + rewrite (IH H). apply orb_true_r.
Qed.

Lemma contains_lstrip (x : string) (p : ascii -> bool) (s : string) :
  Str.contains x (Str.lstrip p s) = true -> Str.contains x s = true.
Proof.
  induction s as [|c s IH]; [exact id|].
  cbn [Str.lstrip]. destruct (p c); [|exact id].
  intros H. cbn [Str.contains]. rewrite (IH H). apply orb_true_r.
Qed.

Lemma startswith_hyphen (s : string) :
  Str.startswith "-" s = first_in Char.is_hyphen s.
Proof.
  destruct s as [|[[] [] [] [] [] [] [] []] s]; reflexivity.
Qed.

Lemma startswith_two_hyphens (c : ascii) (s : string) :
  Str.startswith "--" (String c s) =
  Char.is_hyphen c && first_in Char.is_hyphen s.
Proof.
  change (Str.startswith "--" (String c s))
    with (Ascii.eqb "-" c && Str.startswith "-" s).
  rewrite startswith_hyphen. unfold Char.is_hyphen, Char.hyphen.
  rewrite (Ascii.eqb_sym c). reflexivity.
Qed.

Lemma contains_two_hyphens_cons (c : ascii) (s : string) :
  Str.contains "--" (String c s) =
  (Char.is_hyphen c && first_in Char.is_hyphen s) || Str.contains "--" s.
Proof.
  change (Str.contains "--" (String c s))
    with (Str.startswith "--" (String c s) || Str.contains "--" s).
  rewrite startswith_two_hyphens. reflexivity.
Qed.

Lemma squeeze_no_run (s : string) :
  Str.contains "--" (Str.squeeze Char.is_hyphen s) = false.
Proof.
  induction s as [|c s IH]; [reflexivity|].
  rewrite squeeze_cons.
  destruct (Char.is_hyphen c && first_in Char.is_hyphen s) eqn:E;
    [exact IH|].
  rewrite contains_two_hyphens_cons, first_in_squeeze, E, IH. reflexivity.
Qed.

Lemma first_in_lstrip (p : ascii -> bool) (s : string) :
  first_in p (Str.lstrip p s) = false.
Proof.
  induction s as [|c s IH]; [reflexivity|].
  cbn [Str.lstrip]. destruct (p c) eqn:Hc; [exact IH|]. exact Hc.
Qed.

Lemma first_in_rstrip (p : ascii -> bool) (s : string) :
  first_in p s = false -> first_in p (Str.rstrip p s) = false.
Proof.
  destruct s as [|c s]; [reflexivity|]. cbn [first_in Str.rstrip].
  intros Hc. destruct (Str.rstrip p s); [rewrite Hc|]; cbn; trivial.
Qed.

Lemma endswith_hyphen_cons (c : ascii) (s : string) :
  Str.endswith "-" (String c s) =
  match s with
  | EmptyString => Char.is_hyphen c
  | String _ _ => Str.endswith "-" s
  end.
Proof.
  change (Str.endswith "-" (String c s))
    with (String.eqb "-" (String c s) || Str.endswith "-" s).
  destruct s as [|d s].
  - destruct c as [[] [] [] [] [] [] [] []]; reflexivity.
  - destruct c as [[] [] [] [] [] [] [] []]; reflexivity.
Qed.

Lemma endswith_rstrip (s : string) :
  Str.endswith "-" (Str.rstrip Char.is_hyphen s) = false.
Proof.
  induction s as [|c s IH]; [reflexivity|].
  cbn [Str.rstrip]. destruct (Str.rstrip Char.is_hyphen s) as [|d r] eqn:Hr.
  - destruct (Char.is_hyphen c) eqn:Hc; [reflexivity|].
    rewrite endswith_hyphen_cons. exact Hc.
  - rewrite endswith_hyphen_cons. exact IH.
Qed.

(** X1.  The slug after the tag [mcp-] is made of [a-z], [0-9] and
    hyphens, has no two hyphens in a row and no hyphen at either end,
    whatever the name is. *)
Theorem node_type_is_slug (n : string) :
  exists core,
    _generate_node_type n = "mcp-" ++ core /\
    all_chars slug_char core = true /\
    Str.contains "--" core = false /\
    Str.startswith "-" core = false /\
    Str.endswith "-" core = false.
Proof.
  eexists. split; [reflexivity|]. unfold Str.strip. repeat split.
  - apply all_chars_rstrip, all_chars_lstrip, all_chars_squeeze,
      all_chars_sub_lower.
  - destruct (Str.contains "--" (Str.rstrip _ _)) eqn:E; [|reflexivity].
    destruct (rstrip_prefix Char.is_hyphen
                (Str.lstrip Char.is_hyphen
                   (Str.squeeze Char.is_hyphen
                      (sub_non_alnum (Str.lower n))))) as [t Ht].
    apply (contains_app_l _ _ t) in E. rewrite <- Ht in E.
    apply contains_lstrip in E. rewrite squeeze_no_run in E. discriminate E.
  - rewrite startswith_hyphen. apply first_in_rstrip, first_in_lstrip.
  - apply endswith_rstrip.
Qed.

Lemma slug_char_fixed (c : ascii) :
  slug_char c = true ->
  Char.lower c = c /\ (if is_alnum c then c else Char.hyphen) = c.
Proof.
  destruct c as [[] [] [] [] [] [] [] []]; intros H;
    solve [split; reflexivity | discriminate H].
Qed.

Lemma lower_sub_fixed (s : string) :
  all_chars slug_char s = true ->
  Str.lower s = s /\ sub_non_alnum s = s.
Proof.
  induction s as [|c s IH]; [split; reflexivity|].
  cbn [all_chars]. intros [Hc Hs]%andb_prop.
  destruct (slug_char_fixed c Hc) as [H1 H2]. destruct (IH Hs) as [H3 H4].
  unfold sub_non_alnum in *. cbn [Str.lower Str.map].
  unfold Str.lower in H3. rewrite H1, H2, H3, H4. split; reflexivity.
Qed.

Lemma squeeze_fixed (s : string) :
  Str.contains "--" s = false -> Str.squeeze Char.is_hyphen s = s.
Proof.
  induction s as [|c s IH]; [reflexivity|].
  rewrite contains_two_hyphens_cons, squeeze_cons.
  intros [H1 H2]%orb_false_elim. rewrite H1, (IH H2). reflexivity.
Qed.

Lemma lstrip_fixed (p : ascii -> bool) (s : string) :
  first_in p s = false -> Str.lstrip p s = s.
Proof.
  destruct s as [|c s]; [reflexivity|]. cbn [first_in Str.lstrip].
  intros ->. reflexivity.
Qed.

Lemma rstrip_fixed (s : string) :
  Str.endswith "-" s = false -> Str.rstrip Char.is_hyphen s = s.
Proof.
  induction s as [|c s IH]; [reflexivity|].
  rewrite endswith_hyphen_cons. cbn [Str.rstrip].
  destruct s as [|d s].
  - intros ->. reflexivity.
  - intros H. rewrite (IH H). reflexivity.
Qed.

(** X2.  A text that has the shape of a slug is its own slug: deriving
    the identifier from it puts the tag in front and changes nothing
    else. *)
Theorem slug_is_fixed (s : string) (H : slug_shaped s = true) :
  _generate_node_type s = "mcp-" ++ s.
Proof.
  unfold slug_shaped in H.
  apply andb_prop in H as [H Hend]. apply andb_prop in H as [H Hstart].
  apply andb_prop in H as [Hall Hrun].
  apply negb_true_iff in Hend, Hstart, Hrun.
  destruct (lower_sub_fixed s Hall) as [Hl Hs].
  unfold _generate_node_type, Str.strip.
  rewrite Hl, Hs, (squeeze_fixed s Hrun).
  rewrite startswith_hyphen in Hstart.
  rewrite (lstrip_fixed _ s Hstart), (rstrip_fixed s Hend). reflexivity.
Qed.

(** The slug of [list_directory] is its own slug. *)
Lemma slug_is_fixed_witness :
  slug_shaped "list-directory" = true /\
  _generate_node_type "list-directory" = "mcp-list-directory".
Proof.
  split; [reflexivity|].
  exact (slug_is_fixed "list-directory" eq_refl).
Defined.

















Lemma split_runs_pieces (q : ascii -> bool) (s : string) (b : bool) :
  all_chars (fun c => q c || is_word_sep c) s = true ->
  Forall (fun w => all_chars q w = true) (Str.split_runs is_word_sep b s).
Proof.
  revert b. induction s as [|c s IH]; intros b; [repeat constructor|].
  cbn [all_chars Str.split_runs]. intros [Hc Hs]%andb_prop.
  destruct (is_word_sep c).
  - destruct b; [exact (IH _ Hs)|]. constructor; [reflexivity | exact (IH _ Hs)].
  - rewrite orb_false_r in Hc. specialize (IH false Hs).
    destruct (Str.split_runs is_word_sep false s) as [|w ws].
    + repeat constructor. cbn [all_chars]. rewrite Hc. reflexivity.
    + inversion IH as [|? ? Hw Hws]; subst. constructor; [|exact Hws].
      cbn [all_chars]. rewrite Hc. exact Hw.
Qed.

Lemma all_chars_map (q : ascii -> bool) (f : ascii -> ascii) (w : string) :
  (forall c, q c = true -> q (f c) = true) ->
  all_chars q w = true -> all_chars q (Str.map f w) = true.
Proof.
  intros Hf. induction w as [|c w IH]; [reflexivity|].
  cbn [all_chars Str.map]. intros [Hc Hw]%andb_prop.
  rewrite (Hf c Hc), (IH Hw). reflexivity.
Qed.

Lemma all_chars_capitalize (q : ascii -> bool) (w : string) :
  (forall c, q c = true -> q (Char.upper c) = true) ->
  (forall c, q c = true -> q (Char.lower c) = true) ->
  all_chars q w = true -> all_chars q (Str.capitalize w) = true.
Proof.
  intros Hu Hl. destruct w as [|c w]; [reflexivity|].
  cbn [all_chars Str.capitalize]. intros [Hc Hw]%andb_prop.
  rewrite (Hu c Hc). exact (all_chars_map q _ w Hl Hw).
Qed.

Lemma all_chars_concat (q : ascii -> bool) (l : list string) :
  Forall (fun w => all_chars q w = true) l ->
  all_chars q (String.concat "" l) = true.
Proof.
  induction 1 as [|w l Hw Hl IH]; [reflexivity|].
  cbn [String.concat]. destruct l as [|w' l']; [exact Hw|].
  rewrite !all_chars_app, Hw, IH. reflexivity.
Qed.

Lemma class_name_chars (q : ascii -> bool) (n : string) :
  (forall c, q c = true -> q (Char.upper c) = true) ->
  (forall c, q c = true -> q (Char.lower c) = true) ->
  all_chars q "MCPNode" = true ->
  all_chars (fun c => q c || is_word_sep c) n = true ->
  all_chars q (_generate_class_name n) = true.
Proof.
  intros Hu Hl Hfix Hn. unfold _generate_class_name, Str.re_split.
  rewrite !all_chars_app.
  assert (Hmid : all_chars q
            (String.concat ""
               (List.map Str.capitalize
                  (List.filter Str.nonempty
                     (Str.split_runs is_word_sep false n)))) = true).
  { apply all_chars_concat.
    pose proof (split_runs_pieces q n false Hn) as Hp.
    induction Hp as [|w ws Hw _ IH]; [constructor|].
    cbn [List.filter]. destruct (Str.nonempty w); [|exact IH].
    constructor; [|exact IH]. exact (all_chars_capitalize q w Hu Hl Hw). }
  rewrite Hmid.
  change "MCPNode" with ("MCP" ++ "Node") in Hfix.
  rewrite all_chars_app in Hfix. apply andb_prop in Hfix as [-> ->].
  reflexivity.
Qed.

(** X5.  The type identifier never has an underscore, a hyphen or white
    space in it; and when the name is made of letters, digits and those
    separators only, the type identifier is made of letters and digits
    only. *)
Theorem class_name_is_identifier (n : string)
  (H : all_chars alnum_or_sep n = true) :
  all_chars is_alnum (_generate_class_name n) = true /\
  (forall m, all_chars not_word_sep (_generate_class_name m) = true).
Proof.
  split.
  - apply class_name_chars; try reflexivity; try exact H;
      intros [[] [] [] [] [] [] [] []] Hc;
      solve [reflexivity | discriminate Hc].
  - intros m. apply class_name_chars; try reflexivity.
    + intros [[] [] [] [] [] [] [] []] Hc;
        solve [reflexivity | discriminate Hc].
    + intros [[] [] [] [] [] [] [] []] Hc;
        solve [reflexivity | discriminate Hc].
    + clear. induction m as [|c m IH]; [reflexivity|].
      cbn [all_chars]. rewrite IH, andb_true_r.
      unfold not_word_sep. destruct (is_word_sep c); reflexivity.
Qed.

(** The type identifier of a name in snake case. *)
Lemma class_name_is_identifier_witness :
  all_chars alnum_or_sep "read_text-file 2" = true /\
  all_chars is_alnum (_generate_class_name "read_text-file 2") = true.
Proof.
  split; [reflexivity|].
  exact (proj1 (class_name_is_identifier "read_text-file 2" eq_refl)).
Defined.

(** ** More on the type mapping *)

Lemma python_fails_height (n : nat) :
  forall p, height p <= n ->
    match get_python_type p with
    | Ok _ => element_schemas_ok p = true
    | Raise e => e = AttributeError /\ element_schemas_ok p = false
    end.
Proof.
  induction n as [|n IH]; intros p Hn;
    destruct p as [| | | | | |d]; try (split; reflexivity).
  - simpl in Hn. lia.
  - rewrite get_python_type_by_tag. cbn [element_schemas_ok].
    destruct (tag_of d); try reflexivity.
    rewrite lookup_with_lookup. unfold items_of.
    destruct (Py.lookup "items" d) as [v|] eqn:Hv; [|reflexivity].
    assert (Hh : height v <= n) by (apply lookup_height in Hv; lia).
    specialize (IH v Hh).
    destruct (get_python_type v); exact IH.
Qed.

Lemma typescript_fails_height (n : nat) :
  forall p, height p <= n ->
    match get_typescript_type p with
    | Ok _ => enums_ok p = true
    | Raise e => (e = AttributeError \/ e = TypeError) /\ enums_ok p = false
    end.
Proof.
  induction n as [|n IH]; intros p Hn;
    destruct p as [| | | | | |d]; try (split; [left|]; reflexivity).
  - simpl in Hn. lia.
  - rewrite get_typescript_type_by_tag. cbn [enums_ok].
    destruct (tag_of d); try reflexivity.
    + destruct (Py.lookup "enum" d) as [enum|]; [|reflexivity].
      destruct enum; cbn; try reflexivity; split; try reflexivity;
        right; reflexivity.
    + rewrite lookup_with_lookup. unfold items_of.
      destruct (Py.lookup "items" d) as [v|] eqn:Hv; [|reflexivity].
      assert (Hh : height v <= n) by (apply lookup_height in Hv; lia).
      specialize (IH v Hh).
      destruct (get_typescript_type v); exact IH.
Qed.

(** X6.  The backend mapping fails in one way only: it raises
    [AttributeError], and it does so exactly on the schemas that are no
    object or that have, at some depth of array nesting, [items] that are
    no object. *)
Theorem python_type_fails_exactly (p : json) :
  match get_python_type p with
  | Ok _ => element_schemas_ok p = true
  | Raise e => e = AttributeError /\ element_schemas_ok p = false
  end.
Proof. apply (python_fails_height (height p)). lia. Qed.

(** X7.  The frontend mapping raises [AttributeError] or [TypeError] and
    nothing else, and it raises exactly when a schema on the way down the
    array nesting is no object or an [enum] under the tag [string] cannot
    be iterated over. *)
Theorem typescript_type_fails_exactly (p : json) :
  match get_typescript_type p with
  | Ok _ => enums_ok p = true
  | Raise e => (e = AttributeError \/ e = TypeError) /\ enums_ok p = false
  end.
Proof. apply (typescript_fails_height (height p)). lia. Qed.

(** ** More on the transport *)

Lemma extract_via_http_log (network : Request -> result Response)
  (self : MCPSchemaExtractor) :
  fst (_extract_via_http network self) = [direct_request self].
Proof. apply post_tools_list_log. Qed.

(** X8.  A run of [extract_tools] sends nothing when [urlparse] rejects
    the URL, one [tools/list] request in the direct variant, and in the
    handshake variant the stream request followed by at most one
    [tools/list] request; whatever the answers are, no request is sent a
    second time. *)
Theorem no_request_is_repeated (network : Request -> result Response)
  (json_loads : string -> result json) (self : MCPSchemaExtractor) :
  match select_variant (server_url self) with
  | Raise e => extract_tools network json_loads self = ([], Raise e)
  | Ok Direct =>
      fst (extract_tools network json_loads self) = [direct_request self]
  | Ok Handshake =>
      fst (extract_tools network json_loads self) = [sse_request self] \/
      exists endpoint,
        fst (extract_tools network json_loads self) =
        [ sse_request self;
          Post endpoint (post_headers self) (timeout self) tools_list_body ]
  end.
Proof.
  unfold extract_tools, _extract_tools_standalone.
  destruct (select_variant (server_url self)) as [[|]|e]; [| |reflexivity].
  - rewrite io_bind_lift_ok. apply extract_via_http_log.
  - rewrite io_bind_lift_ok, extract_via_sse_cases.
    destruct (network (sse_request self)) as [response|e]; [|left; reflexivity].
    destruct (is_success response); [|left; reflexivity].
    destruct (read_endpoint json_loads (iter_lines response)) as [v|e];
      [|left; reflexivity].
    destruct (Py.truthy v); [|left; reflexivity].
    right. exists v. cbn [fst]. rewrite post_tools_list_log. reflexivity.
Qed.

Lemma mapM_Forall2 {A B : Type} (f : A -> result B) (xs : list A)
  (ys : list B) :
  mapM f xs = Ok ys -> Forall2 (fun x y => f x = Ok y) xs ys.
Proof.
  revert ys. induction xs as [|x xs IH]; intros ys; cbn [mapM].
  - intros [= <-]. constructor.
  - destruct (f x) as [y|e] eqn:Hx; cbn [bind]; [|intros H; discriminate H].
    destruct (mapM f xs) as [ys'|e]; cbn [bind]; [|intros H; discriminate H].
    intros [= <-]. constructor; [exact Hx | apply IH; reflexivity].
Qed.

Lemma tool_of_record_fields (tool : json) (t : MCPToolSchema) :
  tool_of_record tool = Ok t ->
  Py.getitem tool "name" = Ok (JStr (name t)) /\
  Py.get_none tool "description" = Ok (description t) /\
  Py.get tool "inputSchema" empty_dict = Ok (input_schema t) /\
  derived_ok t.
Proof.
  destruct tool as [| | | | | |d]; try (intros H; discriminate H).
  unfold tool_of_record. cbn [Py.getitem Py.get_none Py.get].
  destruct (Py.lookup "name" d) as [n|]; cbn [bind];
    [|intros H; discriminate H].
  destruct n; try (intros H; discriminate H).
  cbn [MCPToolSchema_init]. intros [= <-]. repeat split.
Qed.

(** X9.  When a reply yields a tool list, the list follows the records of
    [result.tools] one for one and in their order: each schema has the
    name, the description and the input schema of its record (a missing
    description is [None], a missing input schema is empty), and records
    with equal names are all kept. *)
Theorem tools_follow_records (result_ : json) (tools : list MCPToolSchema)
  (H : tools_of_result result_ = Ok tools) :
  exists inner tools_data records,
    Py.get result_ "result" empty_dict = Ok inner /\
    Py.get inner "tools" (JArr []) = Ok tools_data /\
    Py.iter tools_data = Ok records /\
    length tools = length records /\
    Forall2
      (fun record t =>
         Py.getitem record "name" = Ok (JStr (name t)) /\
         Py.get_none record "description" = Ok (description t) /\
         Py.get record "inputSchema" empty_dict = Ok (input_schema t) /\
         derived_ok t)
      records tools.
Proof.
  unfold tools_of_result in H.
  destruct (Py.get result_ "result" empty_dict) as [inner|e] eqn:H1;
    cbn [bind] in H; [|discriminate H].
  destruct (Py.get inner "tools" (JArr [])) as [tools_data|e] eqn:H2;
    cbn [bind] in H; [|discriminate H].
  destruct (Py.iter tools_data) as [records|e] eqn:H3; cbn [bind] in H;
    [|discriminate H].
  apply mapM_Forall2 in H.
  exists inner, tools_data, records.
  split; [reflexivity|]. split; [exact H2|]. split; [exact H3|].
  split.
  - symmetry. eapply Forall2_length. exact H.
  - clear H1 H2 H3.
    induction H as [|record t records tools Ht _ IH]; [constructor|].
    constructor; [exact (tool_of_record_fields record t Ht) | exact IH].
Qed.

(** Two records with one name give two schemas. *)
Lemma tools_follow_records_witness :
  exists tools,
    tools_of_result twin_reply = Ok tools /\
    List.map name tools = ["search"; "search"] /\
    List.map description tools = [JStr "first"; JStr "second"].
Proof.
  destruct (tools_of_result twin_reply) as [tools|e] eqn:H;
    [|discriminate H].
  exists tools. split; [reflexivity|].
  destruct (tools_follow_records twin_reply tools H)
    as (inner & tools_data & records & _ & _ & _ & _ & _).
  injection H as <-. split; reflexivity.
Defined.

(** X10.  A successful reply whose body has no [result], such as a
    JSON-RPC error object, or whose [result] has no [tools], is taken for
    an empty tool list: the direct variant returns without an exception
    and the extractor holds no tool. *)
Theorem reply_without_result (network : Request -> result Response)
  (self : MCPSchemaExtractor) (response : Response) (d : dict)
  (Hsend : network (direct_request self) = Ok response)
  (Hok : is_success response = true)
  (Hbody : json_body response = Ok (JObj d))
  (Hres : Py.lookup "result" d = None \/
          exists inner, Py.lookup "result" d = Some (JObj inner) /\
                        Py.lookup "tools" inner = None) :
  _extract_via_http network self =
  ([direct_request self], Ok (set_tools self [])).
Proof.
  unfold _extract_via_http, post_tools_list, send, io_bind, lift,
    raise_for_status.
  change (Post (JStr (server_url self))
            (Py.setitem "Content-Type" (JStr "application/json")
               (headers self)) (timeout self) tools_list_body)
    with (direct_request self).
  rewrite Hsend, Hok, Hbody.
  assert (Ht : tools_of_result (JObj d) = Ok []).
  { unfold tools_of_result. cbn [Py.get bind].
    destruct Hres as [->|[inner [-> Hi]]]; cbn [Py.get bind];
      [|rewrite Hi]; reflexivity. }
  rewrite Ht. reflexivity.
Qed.

(** The direct variant against a JSON-RPC error reply. *)
Lemma reply_without_result_witness :
  _extract_via_http error_reply_network
    (MCPSchemaExtractor_init "http://localhost:3000/mcp" None (JFloat "30.0")) =
  ([direct_request
      (MCPSchemaExtractor_init "http://localhost:3000/mcp" None
         (JFloat "30.0"))],
   Ok (set_tools
         (MCPSchemaExtractor_init "http://localhost:3000/mcp" None
            (JFloat "30.0")) [])).
Proof.
  exact (reply_without_result error_reply_network
           (MCPSchemaExtractor_init "http://localhost:3000/mcp" None
              (JFloat "30.0"))
           {| is_success := true; iter_lines := [];
              json_body := Ok (JObj error_reply) |}
           error_reply eq_refl eq_refl eq_refl (or_introl eq_refl)).
Defined.

(** X11.  The loop over the event stream stops at the first event that
    carries an [endpoint]: the lines before it are passed over, and what
    comes after it, other endpoints or lines that do not decode, is never
    read. *)
Theorem first_endpoint_wins (json_loads : string -> result json)
  (before after : list string) (line : string) (endpoint : json)
  (Hbefore : Forall (passed_over json_loads) before)
  (Hevent : endpoint_event json_loads line endpoint) :
  read_endpoint json_loads (before ++ line :: after)%list = Ok endpoint.
Proof.
  induction Hbefore as [|l before Hl _ IH].
  - destruct Hevent as [Hs [d [Hd Hk]]].
    cbn [app read_endpoint]. rewrite Hs, Hd. cbn [bind Py.contains].
    rewrite Hk. cbn [bind Py.getitem]. rewrite Hk. reflexivity.
  - cbn [app read_endpoint].
    destruct (Str.startswith "data: " l) eqn:Hs; [|exact IH].
    destruct (Hl Hs) as [data [Hd Hc]].
    rewrite Hd. cbn [bind]. rewrite Hc. cbn [bind]. exact IH.
Qed.

(** A stream with two endpoints and a broken line after the first. *)
Lemma first_endpoint_wins_witness :
  read_endpoint session_json_loads
    [ ": ping"; "data: {}"; "data: " ++ session_payload;
      "data: not json"; "data: {}" ] =
  Ok (JStr "/messages?session=1").
Proof.
  refine (first_endpoint_wins session_json_loads [": ping"; "data: {}"]
            ["data: not json"; "data: {}"] ("data: " ++ session_payload)
            (JStr "/messages?session=1") _ _).
  - repeat constructor; intros Hs; try discriminate Hs.
    exists (JObj []). split; reflexivity.
  - split; [reflexivity|].
    exists [("endpoint", JStr "/messages?session=1")]. split; reflexivity.
Defined.

(** ** More on the flat file *)

Lemma json_load_dump (path : string) (document : json)
  (fs : gmap string file) :
  json_load path (json_dump path document fs) = Ok document.
Proof. unfold json_load, json_dump. rewrite lookup_insert_eq. reflexivity. Qed.

(** X12.  [from_json_file] reads an object with a [tools] list as it
    reads the bare list; an object without [tools] gives no schema and no
    error; a path that holds no file raises [FileNotFoundError]. *)
Theorem flat_file_forms (path : string) (fs : gmap string file) :
  (forall d records,
     Py.lookup "tools" d = Some (JArr records) ->
     from_json_file path (json_dump path (JObj d) fs) =
     from_json_file path (json_dump path (JArr records) fs)) /\
  (forall d,
     Py.lookup "tools" d = None ->
     from_json_file path (json_dump path (JObj d) fs) = Ok []) /\
  (fs !! path = None -> from_json_file path fs = Raise FileNotFoundError).
Proof.
  split; [|split].
  - intros d records Hd. unfold from_json_file. rewrite !json_load_dump.
    cbn [bind Py.get]. rewrite Hd. reflexivity.
  - intros d Hd. unfold from_json_file. rewrite json_load_dump.
    cbn [bind Py.get]. rewrite Hd. reflexivity.
  - intros Hp. unfold from_json_file, json_load. rewrite Hp. reflexivity.
Qed.

Lemma mapM_app_raise {A B : Type} (f : A -> result B) (good : list A)
  (ys : list B) (x : A) (rest : list A) (e : exn) :
  mapM f good = Ok ys -> f x = Raise e ->
  mapM f (good ++ x :: rest)%list = Raise e.
Proof.
  revert ys. induction good as [|g good IH]; intros ys; cbn [app mapM].
  - intros _ ->. reflexivity.
  - destruct (f g) as [y|e']; cbn [bind]; [|intros H; discriminate H].
    destruct (mapM f good) as [ys'|e'] eqn:Hg; cbn [bind];
      [|intros H; discriminate H].
    intros _ Hx. rewrite (IH ys' eq_refl Hx). reflexivity.
Qed.

(** X13.  One record without a [name] fails the whole load: when the
    records before it are accepted, [from_json_file] raises [KeyError] for
    [name] and returns none of the schemas, whatever follows the record. *)
Theorem nameless_record_fails_load (path : string) (fs : gmap string file)
  (good : list json) (loaded : list MCPToolSchema) (d : dict)
  (rest : list json)
  (Hgood : mapM from_dict good = Ok loaded)
  (Hname : Py.lookup "name" d = None) :
  from_json_file path
    (json_dump path (JArr (good ++ JObj d :: rest)%list) fs) =
  Raise (KeyError "name").
Proof.
  unfold from_json_file. rewrite json_load_dump. cbn [bind Py.iter].
  apply (mapM_app_raise from_dict good loaded); [exact Hgood|].
  rewrite from_dict_lookup, Hname. reflexivity.
Qed.

(** A file whose second record has no name. *)
Lemma nameless_record_fails_load_witness :
  from_json_file "tools.json"
    (json_dump "tools.json"
       (JArr [ JObj [("name", JStr "search")];
               JObj [("description", JStr "no name here")];
               JObj [("name", JStr "read_file")] ]) ∅) =
  Raise (KeyError "name").
Proof.
  exact (nameless_record_fails_load "tools.json" ∅
           [JObj [("name", JStr "search")]] _
           [("description", JStr "no name here")]
           [JObj [("name", JStr "read_file")]] eq_refl eq_refl).
Defined.

(** X14.  Generation does not look at the server URL: for any two URLs
    the same files are written with the same contents.  So generating from
    a file of saved schemas, where no URL is known, gives what generating
    from the extracted tools gives. *)
Theorem offline_generation_agrees (self : MCPSchemaExtractor)
  (path : string) (fs0 : gmap string file)
  (H : Forall derived_ok (_tools self)) :
  (forall g schema url1 url2 fs,
     generate g schema url1 fs = generate g schema url2 fs) /\
  exists loaded,
    from_json_file path (save_schemas self path fs0) = Ok loaded /\
    forall g url fs,
      generate_all g loaded "" fs = generate_all g (_tools self) url fs.
Proof.
  assert (Hurl : forall g schema url1 url2 fs,
            generate g schema url1 fs = generate g schema url2 fs)
    by reflexivity.
  split; [exact Hurl|].
  exists (_tools self). split.
  - unfold from_json_file, save_schemas. rewrite json_load_dump.
    cbn [bind Py.iter]. apply mapM_from_dict. exact H.
  - intros g url fs. clear H. revert fs.
    induction (_tools self) as [|schema schemas IH]; intros fs;
      [reflexivity|].
    cbn [generate_all]. unfold gen_bind.
    rewrite (Hurl g schema "" url fs).
    destruct (generate g schema url fs) as [fs' [dir|e]]; [|reflexivity].
    rewrite IH. reflexivity.
Qed.

(** Saved and loaded schemas generate the bundle of the extracted ones. *)
Lemma offline_generation_agrees_witness :
  exists loaded,
    from_json_file "tools.json"
      (save_schemas
         (set_tools (MCPSchemaExtractor_init "http://localhost:3000/sse" None
                       (JFloat "30.0")) [list_directory_schema])
         "tools.json" ∅) = Ok loaded /\
    forall g url fs,
      generate_all g loaded "" fs =
      generate_all g [list_directory_schema] url fs.
Proof.
  refine (proj2 (offline_generation_agrees
                   (set_tools (MCPSchemaExtractor_init
                                 "http://localhost:3000/sse" None
                                 (JFloat "30.0")) [list_directory_schema])
                   "tools.json" ∅ _)).
  repeat constructor.
Defined.

(** ** The stages of a run *)

Lemma input_def_ok (required : json) (prop_name : string)
  (prop_schema d : json) :
  input_def required prop_name prop_schema = Ok d ->
  (exists fields, prop_schema = JObj fields) /\
  exists b, Py.contains prop_name required = Ok b.
Proof.
  unfold input_def. intros H.
  destruct prop_schema as [| | | | |l|fields]; try discriminate H.
  split; [eauto|].
  cbn [Py.get Py.contains Py.getitem bind] in H.
  destruct (Py.lookup "description" fields);
    (destruct (Py.contains prop_name required) as [b|e];
     [eauto | discriminate H]).
Qed.

(** What lets the manifest's loop finish lets the loop of the backend
    file finish. *)
Lemma node_py_loop_ok (required : json) (params : string) (props : dict) :
  forall inputs out,
    input_schema_loop required props inputs = Ok out ->
    exists r, node_py_loop required params props = Ok r.
Proof.
  induction props as [|[prop_name prop_schema] rest IH]; intros inputs out H.
  - eexists. reflexivity.
  - cbn [input_schema_loop] in H.
    destruct (input_def required prop_name prop_schema) as [d|e] eqn:Hd;
      [|discriminate H].
    cbn [bind] in H.
    destruct (input_def_ok _ _ _ _ Hd) as [[fields ->] [b Hb]].
    destruct (IH _ _ H) as [r Hr].
    cbn [node_py_loop default_text Py.get bind]. rewrite Hb. cbn [bind].
    rewrite Hr. cbn [bind]. eexists. reflexivity.
Qed.

Lemma manifest_then_node_py (schema : MCPToolSchema) (server_url_ : string)
  (manifest : json) :
  manifest_of schema = Ok manifest ->
  exists node_code, _generate_node_py schema server_url_ = Ok node_code.
Proof.
  unfold manifest_of, _generate_input_schema, _generate_node_py. intros H.
  destruct (properties schema) as [props|e]; [|discriminate H].
  cbn [bind] in H |- *.
  destruct (required_fields schema) as [required|e]; [|discriminate H].
  cbn [bind] in H |- *.
  destruct (Py.items props) as [items|e]; [|discriminate H].
  cbn [bind] in H |- *.
  destruct (input_schema_loop required items _) as [inputs|e] eqn:Hl;
    [|discriminate H].
  destruct (node_py_loop_ok required (params_listing (List.map fst items))
              _ _ _ Hl) as [r ->].
  cbn [bind]. eexists. reflexivity.
Qed.

(** The writes of the loop over the frontend files. *)
Lemma write_files_write_all (dir : string) (files : list (string * string))
  (fs : gmap string file) :
  write_files dir files fs =
  (write_all
     (List.map (fun nc => (joinpath dir (fst nc), Text (snd nc))) files) fs,
   Ok tt).
Proof.
  revert fs. induction files as [|[filename content] files IH]; intros fs.
  - reflexivity.
  - cbn [write_files]. unfold gen_bind, effect. rewrite IH. reflexivity.
Qed.


(** The three ways a run of [generate] can end. *)
Lemma generate_cases (self : CustomNodeGenerator) (schema : MCPToolSchema)
  (server_url_ : string) (fs : gmap string file) :
  let node_dir := joinpath (output_dir self) (node_type schema) in
  match manifest_of schema with
  | Raise e => generate self schema server_url_ fs = (fs, Raise e)
  | Ok manifest =>
      exists node_code,
        _generate_node_py schema server_url_ = Ok node_code /\
        let backend :=
          [ (joinpath node_dir "manifest.json", Json manifest);
            (joinpath (joinpath node_dir "backend") "__init__.py", Text "");
            (joinpath (joinpath node_dir "backend") "node.py",
             Text node_code) ] in
        match frontend_files schema with
        | Raise e =>
            generate self schema server_url_ fs =
            (write_all backend fs, Raise e)
        | Ok files =>
            generate self schema server_url_ fs =
            (write_all
               (backend ++
                List.map
                  (fun nc => (joinpath (joinpath node_dir "frontend") (fst nc),
                              Text (snd nc))) files)%list fs,
             Ok node_dir)
        end
  end.
Proof.
  intros node_dir.
  destruct (manifest_of schema) as [manifest|e] eqn:Hm.
  - destruct (manifest_then_node_py schema server_url_ manifest Hm)
      as [node_code Hn].
    exists node_code. split; [exact Hn|].
    unfold generate, _generate_manifest, _generate_backend,
      _generate_frontend, mkdir, gen_bind, gen_ret, pure, effect.
    rewrite Hm, Hn. fold node_dir.
    destruct (frontend_files schema) as [files|e]; [|reflexivity].
    rewrite write_files_write_all, write_all_app. reflexivity.
  - unfold generate, _generate_manifest, gen_bind, mkdir, gen_ret, pure.
    rewrite Hm. reflexivity.
Qed.

Lemma written_not_in (files : list (string * file)) (p : string) :
  ~ In p (List.map fst files) -> written files p = None.
Proof.
  induction files as [|[q f] files IH] using List.rev_ind; [reflexivity|].
  rewrite List.map_app, List.in_app_iff, written_snoc. cbn [List.map fst In].
  intros H. destruct (String.eqb p q) eqn:E.
  - apply String.eqb_eq in E. subst q. exfalso. apply H. right. left.
    reflexivity.
  - apply IH. intros Hin. apply H. left. exact Hin.
Qed.

(** Writes to the same paths hide what earlier writes to these paths
    left. *)
Lemma write_all_over (xs ys : list (string * file)) (fs : gmap string file) :
  incl (List.map fst xs) (List.map fst ys) ->
  write_all ys (write_all xs fs) = write_all ys fs.
Proof.
  intros Hincl. apply map_eq. intros p. rewrite !lookup_write_all.
  destruct (written ys p) eqn:Hy; [reflexivity|].
  rewrite written_not_in; [reflexivity|].
  intros Hin. destruct (written_in ys p (Hincl p Hin)) as [f Hf].
  rewrite Hf in Hy. discriminate Hy.
Qed.





(** X17.  Two schemas with the same [node_type] share one directory.  When
    both runs succeed, [generate_all] on the two returns that directory
    twice and leaves the file system as the run for the second schema alone
    would: every file of the first bundle is overwritten. *)
Theorem generate_all_overwrites (self : CustomNodeGenerator)
  (s1 s2 : MCPToolSchema) (server_url_ : string) (fs : gmap string file)
  (d1 d2 : string) :
  node_type s1 = node_type s2 ->
  snd (generate self s1 server_url_ fs) = Ok d1 ->
  snd (generate self s2 server_url_ fs) = Ok d2 ->
  d1 = d2 /\
  generate_all self [s1; s2] server_url_ fs =
  (fst (generate self s2 server_url_ fs), Ok [d2; d2]).
Proof.
  intros Hnt H1 H2.
  destruct (write_only_generate self s1 server_url_) as [f1 [r1 G1]].
  destruct (write_only_generate self s2 server_url_) as [f2 [r2 G2]].
  rewrite G1 in H1. rewrite G2 in H2. cbn [snd] in H1, H2. subst r1 r2.
  destruct (generate_ok_paths self s1 server_url_ f1 d1 G1)
    as [o1 [_ [P1 W1]]].
  destruct (generate_ok_paths self s2 server_url_ f2 d2 G2)
    as [o2 [_ [P2 W2]]].
  assert (Hd : d1 = d2).
  { pose proof (generate_cases self s1 server_url_ fs) as C1.
    pose proof (generate_cases self s2 server_url_ fs) as C2.
    cbv zeta in C1, C2. rewrite G1 in C1. rewrite G2 in C2.
    destruct (manifest_of s1); [|discriminate C1].
    destruct (manifest_of s2); [|discriminate C2].
    destruct C1 as [c1 [_ C1]]. destruct C2 as [c2 [_ C2]].
    destruct (frontend_files s1); [|discriminate C1].
    destruct (frontend_files s2); [|discriminate C2].
    injection C1 as _ C1. injection C2 as _ C2. rewrite C1, C2, Hnt.
    reflexivity. }
  split; [exact Hd|].
  cbn [generate_all]. unfold gen_bind, gen_ret.
  rewrite G1, G2, G2. cbn [fst]. subst d1.
  f_equal. rewrite !W2, W1. apply write_all_over.
  rewrite P1, P2. unfold bundle_paths. rewrite Hnt. apply incl_refl.
Qed.

Lemma generate_all_overwrites_witness :
  "nodes/mcp-list-directory" = "nodes/mcp-list-directory" /\
  generate_all {| output_dir := "nodes" |}
    [list_directory_schema; list_directory_twin] "" ∅ =
  (fst (generate {| output_dir := "nodes" |} list_directory_twin "" ∅),
   Ok ["nodes/mcp-list-directory"; "nodes/mcp-list-directory"]).
Proof.
  apply (generate_all_overwrites {| output_dir := "nodes" |}
           list_directory_schema list_directory_twin "" ∅);
    vm_compute; reflexivity.
Defined.








(** ** Headers of the command line *)

Lemma contains_char_cons (a c : ascii) (s : string) :
  Str.contains (String a EmptyString) (String c s) =
  Ascii.eqb a c || Str.contains (String a EmptyString) s.
Proof.
  cbn [Str.contains Str.startswith]. destruct s; rewrite andb_true_r;
    reflexivity.
Qed.

Lemma contains_char_app (a : ascii) (x y : string) :
  Str.contains (String a EmptyString) (x ++ y) =
  Str.contains (String a EmptyString) x ||
  Str.contains (String a EmptyString) y.
Proof.
  induction x as [|c x IH].
  - change (EmptyString ++ y) with y. reflexivity.
  - rewrite append_cons, !contains_char_cons, IH, orb_assoc. reflexivity.
Qed.

Lemma split_char_nonnil (sep : ascii) (s : string) : split_char sep s <> [].
Proof.
  induction s as [|c s IH]; cbn [split_char]; [discriminate|].
  destruct (Ascii.eqb c sep); [discriminate|].
  destruct (split_char sep s); discriminate.
Qed.

Lemma split_char_app (sep : ascii) (w rest : string) :
  Str.contains (String sep EmptyString) w = false ->
  split_char sep (w ++ String sep rest) = w :: split_char sep rest.
Proof.
  induction w as [|c w IH]; intros H.
  - change (EmptyString ++ String sep rest) with (String sep rest).
    cbn [split_char]. rewrite Ascii.eqb_refl. reflexivity.
  - rewrite contains_char_cons in H. apply orb_false_elim in H as [Hc Hw].
    rewrite append_cons. cbn [split_char].
    rewrite Ascii.eqb_sym, Hc, (IH Hw). reflexivity.
Qed.

Lemma split_char_none (sep : ascii) (w : string) :
  Str.contains (String sep EmptyString) w = false -> split_char sep w = [w].
Proof.
  induction w as [|c w IH]; intros H; [reflexivity|].
  rewrite contains_char_cons in H. apply orb_false_elim in H as [Hc Hw].
  cbn [split_char]. rewrite Ascii.eqb_sym, Hc, (IH Hw). reflexivity.
Qed.

(** Cutting at the commas undoes joining with commas. *)
Lemma split_char_join (sep : ascii) (items : list string) (item : string) :
  Forall (fun w => Str.contains (String sep EmptyString) w = false)
    (item :: items) ->
  split_char sep (Str.join (String sep EmptyString) (item :: items)) =
  item :: items.
Proof.
  revert item. induction items as [|next items IH]; intros item H.
  - apply split_char_none. exact (Forall_inv H).
  - change (Str.join (String sep EmptyString) (item :: next :: items))
      with (item ++ String sep EmptyString ++
            Str.join (String sep EmptyString) (next :: items)).
    change (String sep EmptyString ++ ?x) with (String sep x).
    rewrite split_char_app by exact (Forall_inv H).
    rewrite IH by exact (Forall_inv_tail H). reflexivity.
Qed.

Lemma split_once_app (sep : ascii) (k v : string) :
  Str.contains (String sep EmptyString) k = false ->
  split_once sep (k ++ String sep v) = [k; v].
Proof.
  induction k as [|c k IH]; intros H.
  - change (EmptyString ++ String sep v) with (String sep v).
    cbn [split_once]. rewrite Ascii.eqb_refl. reflexivity.
  - rewrite contains_char_cons in H. apply orb_false_elim in H as [Hc Hk].
    rewrite append_cons. cbn [split_once].
    rewrite Ascii.eqb_sym, Hc, (IH Hk). reflexivity.
Qed.

(** A text with the separator is cut in two. *)
Lemma split_once_two (sep : ascii) (s : string) :
  Str.contains (String sep EmptyString) s = true ->
  exists k v, split_once sep s = [k; v].
Proof.
  induction s as [|c s IH]; intros H; [discriminate H|].
  rewrite contains_char_cons in H. cbn [split_once].
  rewrite Ascii.eqb_sym. destruct (Ascii.eqb sep c); [eauto|].
  destruct (IH H) as [k [v ->]]. eauto.
Qed.

Lemma rstrip_rstrip (p : ascii -> bool) (s : string) :
  Str.rstrip p (Str.rstrip p s) = Str.rstrip p s.
Proof.
  induction s as [|c s IH]; [reflexivity|].
  cbn [Str.rstrip]. destruct (Str.rstrip p s) as [|d r] eqn:E.
  - destruct (p c) eqn:Hc; [reflexivity|]. cbn [Str.rstrip]. rewrite Hc.
    reflexivity.
  - cbn [Str.rstrip] in IH |- *. rewrite IH. reflexivity.
Qed.

(** [strip] is idempotent. *)
Lemma strip_strip (p : ascii -> bool) (s : string) :
  Str.strip p (Str.strip p s) = Str.strip p s.
Proof.
  unfold Str.strip.
  rewrite (lstrip_fixed p (Str.rstrip p (Str.lstrip p s))).
  - apply rstrip_rstrip.
  - apply first_in_rstrip, first_in_lstrip.
Qed.

Lemma setitem_fresh (k : string) (v : json) (d : dict) :
  ~ In k (List.map fst d) -> Py.setitem k v d = (d ++ [(k, v)])%list.
Proof.
  induction d as [|[k' v'] d IH]; intros H; [reflexivity|].
  cbn [Py.setitem List.app]. cbn [List.map fst In] in H.
  destruct (String.eqb k k') eqn:E.
  - apply String.eqb_eq in E. subst k'. exfalso. apply H. left. reflexivity.
  - rewrite IH; [reflexivity|]. intros Hin. apply H. right. exact Hin.
Qed.

Lemma Forall_setitem (P : string * json -> Prop) (k : string) (v : json)
  (d : dict) :
  P (k, v) -> Forall P d -> Forall P (Py.setitem k v d).
Proof.
  intros Hkv. induction 1 as [|[k' v'] d Hx Hd IH]; cbn [Py.setitem].
  - constructor; [exact Hkv | constructor].
  - destruct (String.eqb k k'); constructor; assumption.
Qed.

(** The loop on well-formed pairs. *)
Lemma parse_headers_loop_texts (raw : list (string * string)) :
  Forall (fun kv => Str.contains ":" (fst kv) = false) raw ->
  forall headers_,
    parse_headers_loop (List.map header_text raw) headers_ =
    Ok (List.fold_left
          (fun d kv => Py.setitem (fst (header_entry kv))
                         (snd (header_entry kv)) d) raw headers_).
Proof.
  induction 1 as [|[k v] raw Hk Hraw IH]; intros headers_; [reflexivity|].
  cbn [List.map List.fold_left parse_headers_loop].
  unfold header_text at 1 2. cbn [fst snd] in Hk |- *.
  change (":" ++ v) with (String ":"%char v).
  rewrite contains_char_app, contains_char_cons, Ascii.eqb_refl, orb_true_r.
  rewrite (split_once_app ":"%char k v Hk). apply IH.
Qed.

Lemma fold_setitem_fresh (raw : list (string * string)) :
  forall headers_,
    List.NoDup (List.map fst headers_ ++ List.map (fun kv => fst (header_entry kv)) raw)%list ->
    List.fold_left
      (fun d kv => Py.setitem (fst (header_entry kv)) (snd (header_entry kv)) d)
      raw headers_ =
    (headers_ ++ List.map header_entry raw)%list.
Proof.
  induction raw as [|kv raw IH]; intros headers_ H.
  - cbn [List.fold_left List.map]. rewrite List.app_nil_r. reflexivity.
  - cbn [List.fold_left List.map] in H |- *.
    rewrite setitem_fresh.
    + rewrite IH.
      * rewrite <- List.app_assoc. destruct (header_entry kv). reflexivity.
      * rewrite List.map_app, <- List.app_assoc. exact H.
    + intros Hin. apply List.NoDup_remove_2 in H. apply H.
      apply List.in_or_app. left. exact Hin.
Qed.

(** The loop never fails, and keeps entries stripped. *)
Lemma parse_headers_loop_total (P : string * json -> Prop)
  (HP : forall k v, P (Str.strip Char.is_space k,
                       JStr (Str.strip Char.is_space v)))
  (pairs : list string) :
  forall headers_,
    Forall P headers_ ->
    exists d, parse_headers_loop pairs headers_ = Ok d /\ Forall P d /\
              (Forall (fun p => Str.contains ":" p = false) pairs ->
               d = headers_).
Proof.
  induction pairs as [|pair_ pairs IH]; intros headers_ Hh.
  - exists headers_. split; [reflexivity|]. split; [exact Hh|]. reflexivity.
  - cbn [parse_headers_loop].
    destruct (Str.contains ":" pair_) eqn:Hc.
    + destruct (split_once_two ":"%char pair_ Hc) as [k [v ->]].
      destruct (IH _ (Forall_setitem P _ _ headers_ (HP k v) Hh))
        as [d [Hd [HPd _]]].
      exists d. split; [exact Hd|]. split; [exact HPd|].
      intros Hall. apply Forall_inv in Hall. rewrite Hc in Hall.
      discriminate Hall.
    + destruct (IH _ Hh) as [d [Hd [HPd Hsame]]].
      exists d. split; [exact Hd|]. split; [exact HPd|].
      intros Hall. apply Hsame. exact (Forall_inv_tail Hall).
Qed.

Lemma split_char_pieces (a sep : ascii) (s : string) :
  Str.contains (String a EmptyString) s = false ->
  Forall (fun w => Str.contains (String a EmptyString) w = false)
    (split_char sep s).
Proof.
  induction s as [|c s IH]; intros H.
  - repeat constructor.
  - rewrite contains_char_cons in H. apply orb_false_elim in H as [Hc Hs].
    specialize (IH Hs). cbn [split_char].
    destruct (Ascii.eqb c sep).
    + constructor; [reflexivity | exact IH].
    + destruct (split_char sep s) as [|w ws].
      * constructor; [|constructor]. rewrite contains_char_cons, Hc.
        reflexivity.
      * constructor; [|exact (Forall_inv_tail IH)].
        rewrite contains_char_cons, Hc. exact (Forall_inv IH).
Qed.

(** X20.  [_parse_headers] accepts every text: the unpacking of
    [pair.split(':', 1)] never fails.  Every key and every value of the
    dictionary it returns is a text without white space at either end, and a
    text without a colon gives the empty dictionary. *)
Theorem parse_headers_total (headers_str : string) :
  exists d,
    _parse_headers headers_str = Ok d /\
    Forall (fun kv => stripped (fst kv) /\
                      exists v, snd kv = JStr v /\ stripped v) d /\
    (Str.contains ":" headers_str = false -> d = []).
Proof.
  unfold _parse_headers.
  destruct (parse_headers_loop_total
              (fun kv => stripped (fst kv) /\
                         exists v, snd kv = JStr v /\ stripped v)
              (fun k v => conj (strip_strip Char.is_space k)
                            (ex_intro _ _
                               (conj eq_refl (strip_strip Char.is_space v))))
              (split_char "," headers_str) [] (List.Forall_nil _))
    as [d [Hd [HP Hnone]]].
  exists d. split; [exact Hd|]. split; [exact HP|].
  intros H. apply Hnone. apply split_char_pieces. exact H.
Qed.

(** X21.  Headers written as [key:value] and joined with commas are read
    back in their order, each key and value without the white space around
    it, provided no key has a comma or a colon, no value has a comma, and the
    keys are different once stripped.  A value may have colons. *)
Theorem parse_headers_round_trip (raw : list (string * string)) :
  Forall (fun kv => Str.contains "," (fst kv) = false /\
                    Str.contains ":" (fst kv) = false /\
                    Str.contains "," (snd kv) = false) raw ->
  List.NoDup (List.map (fun kv => Str.strip Char.is_space (fst kv)) raw) ->
  _parse_headers (Str.join "," (List.map header_text raw)) =
  Ok (List.map header_entry raw).
Proof.
  intros Hraw Hnd. unfold _parse_headers.
  destruct raw as [|kv raw]; [reflexivity|].
  cbn [List.map]. rewrite split_char_join.
  - rewrite (parse_headers_loop_texts (kv :: raw)).
    + rewrite fold_setitem_fresh; [reflexivity|]. exact Hnd.
    + eapply List.Forall_impl; [|exact Hraw]. intros x [_ [H _]]. exact H.
  - change (header_text kv :: List.map header_text raw)
      with (List.map header_text (kv :: raw)).
    apply List.Forall_map. eapply List.Forall_impl; [|exact Hraw].
    intros [k v] [Hk [_ Hv]]. unfold header_text. cbn [fst snd] in *.
    change (":" ++ v) with (String ":"%char v).
    rewrite contains_char_app, contains_char_cons, Hk, Hv. reflexivity.
Qed.

Lemma parse_headers_round_trip_witness :
  _parse_headers
    (Str.join ","
       (List.map header_text
          [("Authorization", " Bearer a:b"); (" X-Trace ", "1")])) =
  Ok (List.map header_entry
        [("Authorization", " Bearer a:b"); (" X-Trace ", "1")]).
Proof.
  apply parse_headers_round_trip.
  - repeat constructor.
  - vm_compute. repeat constructor; cbn [In]; intuition discriminate.
Defined.

(** ** Titles *)



Lemma all_chars_map_into (q : ascii -> bool) (f : ascii -> ascii)
  (s : string) :
  (forall c, q (f c) = true) -> all_chars q (Str.map f s) = true.
Proof.
  intros H. induction s as [|c s IH]; [reflexivity|].
  cbn [Str.map all_chars]. rewrite H, IH. reflexivity.
Qed.














(** ** The inputs of the manifest *)

Lemma lookup_not_in (k : string) (d : dict) :
  ~ In k (List.map fst d) -> Py.lookup k d = None.
Proof.
  induction d as [|[k' v] d IH]; intros H; [reflexivity|].
  cbn [Py.lookup]. cbn [List.map fst In] in H.
  destruct (String.eqb k k') eqn:E.
  - apply String.eqb_eq in E. subst k'. exfalso. apply H. left. reflexivity.
  - apply IH. intros Hin. apply H. right. exact Hin.
Qed.

Ltac entry_keys k :=
  repeat match goal with
         | |- context [String.eqb k ?x] =>
             let E := fresh "E" in
             destruct (String.eqb k x) eqn:E;
             [apply String.eqb_eq in E; subst k; reflexivity|]
         end.

(** X23.  The manifest entry of a parameter has at most six fields:
    [type] (the schema's, or [string] when it has none), [title] (the
    formatted name), [description], [default] and [enum] exactly when the
    parameter's schema has them and with its values, and [required: true]
    exactly when the name is in [required].  Nothing else of the parameter's
    schema ([items], [format], [minimum], ...) reaches the manifest. *)
Theorem manifest_entry_fields (required : json) (prop_name : string)
  (d : dict) (b : bool) :
  Py.contains prop_name required = Ok b ->
  exists fields,
    input_def required prop_name (JObj d) = Ok (JObj fields) /\
    forall k, Py.lookup k fields = entry_field required prop_name d k.
Proof.
  intros Hb. unfold input_def, entry_field, listed.
  cbn [Py.get Py.contains Py.getitem bind]. rewrite Hb. cbn [bind].
  destruct (Py.lookup "description" d) as [v1|]; cbn [bind];
    destruct b;
    destruct (Py.lookup "default" d) as [v2|]; cbn [bind];
    destruct (Py.lookup "enum" d) as [v3|]; cbn [bind];
    (eexists; split; [reflexivity|]);
    intros k; rewrite ?lookup_setitem; cbn [Py.lookup];
    entry_keys k; reflexivity.
Qed.

Lemma manifest_entry_fields_witness :
  exists fields,
    input_def (JArr [JStr "path"]) "path"
      (JObj [ ("type", JStr "string"); ("format", JStr "uri");
              ("default", JStr "/tmp") ]) = Ok (JObj fields) /\
    forall k,
      Py.lookup k fields =
      entry_field (JArr [JStr "path"]) "path"
        [ ("type", JStr "string"); ("format", JStr "uri");
          ("default", JStr "/tmp") ] k.
Proof.
  apply (manifest_entry_fields (JArr [JStr "path"]) "path" _ true).
  reflexivity.
Defined.

(** What the loop over the properties leaves under each key. *)
Lemma input_schema_loop_lookup (required : json) (props : dict) :
  forall inputs out,
    input_schema_loop required props inputs = Ok out ->
    List.NoDup (List.map fst props) ->
    forall k,
      match Py.lookup k props with
      | Some prop_schema =>
          exists def,
            input_def required k prop_schema = Ok def /\
            Py.lookup k out = Some def
      | None => Py.lookup k out = Py.lookup k inputs
      end.
Proof.
  induction props as [|[k0 ps0] rest IH]; intros inputs out H Hnd k.
  - cbn [input_schema_loop] in H. injection H as <-. reflexivity.
  - cbn [input_schema_loop] in H. cbn [List.map fst] in Hnd.
    destruct (input_def required k0 ps0) as [d0|e] eqn:Hd; [|discriminate H].
    cbn [bind] in H. apply List.NoDup_cons_iff in Hnd as [Hk0 Hnd].
    specialize (IH _ _ H Hnd k). cbn [Py.lookup].
    destruct (String.eqb k k0) eqn:E.
    + apply String.eqb_eq in E. subst k0.
      rewrite (lookup_not_in k rest Hk0) in IH.
      rewrite lookup_setitem, String.eqb_refl in IH. eauto.
    + destruct (Py.lookup k rest); [exact IH|].
      rewrite lookup_setitem, E in IH. exact IH.
Qed.

(** X24.  The [inputs] of the manifest hold, under the name of each
    parameter of the tool, the entry made of that parameter's schema, and
    under [mcp_server_url] the fixed entry of the endpoint, unless the tool
    has a parameter of that name, whose entry then takes its place.  There
    is no other key.  (The keys of [properties] are different, as those of a
    dictionary are.) *)
Theorem manifest_inputs (schema : MCPToolSchema) (props : dict)
  (inputs : json) :
  properties schema = Ok (JObj props) ->
  List.NoDup (List.map fst props) ->
  _generate_input_schema schema = Ok inputs ->
  exists required entries,
    required_fields schema = Ok required /\
    inputs = JObj entries /\
    forall k,
      match Py.lookup k props with
      | Some prop_schema =>
          exists def,
            input_def required k prop_schema = Ok def /\
            Py.lookup k entries = Some def
      | None =>
          Py.lookup k entries =
          if String.eqb k "mcp_server_url" then Some server_url_input
          else None
      end.
Proof.
  intros Hp Hnd. unfold _generate_input_schema. rewrite Hp. cbn [bind].
  destruct (required_fields schema) as [required|e]; [|intros H; discriminate H].
  cbn [bind Py.items].
  destruct (input_schema_loop required props _) as [entries|e] eqn:Hl;
    [|intros H; discriminate H].
  cbn [bind]. intros H. injection H as <-.
  exists required, entries. split; [reflexivity|]. split; [reflexivity|].
  intros k. pose proof (input_schema_loop_lookup _ _ _ _ Hl Hnd k) as Hk.
  destruct (Py.lookup k props); exact Hk.
Qed.

Lemma manifest_inputs_witness :
  exists required entries,
    required_fields list_directory_schema = Ok required /\
    JObj [ ("mcp_server_url", server_url_input);
           ("path",
            JObj [ ("type", JStr "string"); ("title", JStr "Path");
                   ("description", JStr "Directory path");
                   ("required", JBool true) ]) ] = JObj entries /\
    forall k,
      match Py.lookup k
              [ ("path",
                 JObj [ ("type", JStr "string");
                        ("description", JStr "Directory path") ]) ] with
      | Some prop_schema =>
          exists def,
            input_def required k prop_schema = Ok def /\
            Py.lookup k entries = Some def
      | None =>
          Py.lookup k entries =
          if String.eqb k "mcp_server_url" then Some server_url_input
          else None
      end.
Proof.
  apply (manifest_inputs list_directory_schema).
  - reflexivity.
  - repeat constructor; cbn [In]; intuition discriminate.
  - vm_compute. reflexivity.
Defined.

(** ** The lines of the backend file *)

(** X25.  In [node.py] every parameter of the tool gets one line that
    reads it, in the order of [properties], and the guards are those of the
    parameters that are listed in [required], in that order too: a name in
    [required] that is no parameter gets no guard, and a parameter is never
    guarded twice. *)
Theorem backend_lines_and_guards (required : json) (params : string)
  (props : dict) (lines guards : list string) :
  node_py_loop required params props = Ok (lines, guards) ->
  Forall2 (fun kv line =>
             exists default,
               default_text (snd kv) = Ok default /\
               line = input_line (fst kv) default) props lines /\
  guards =
  List.map (fun kv => validation_block (fst kv) params (_format_name (fst kv)))
    (List.filter (fun kv => listed required (fst kv)) props).
Proof.
  revert lines guards.
  induction props as [|[prop_name prop_schema] rest IH]; intros lines guards H.
  - cbn [node_py_loop] in H. injection H as <- <-. split; [constructor|].
    reflexivity.
  - cbn [node_py_loop] in H.
    destruct (default_text prop_schema) as [default|e] eqn:Hd;
      [|discriminate H].
    cbn [bind] in H. cbn [List.filter fst]. unfold listed at 1.
    destruct (Py.contains prop_name required) as [b|e]; [|discriminate H].
    cbn [bind] in H.
    destruct (node_py_loop required params rest) as [[lines' guards']|e];
      [|discriminate H].
    cbn [bind fst snd] in H. injection H as <- <-.
    destruct (IH _ _ eq_refl) as [Hl Hg]. split.
    + constructor; [|exact Hl]. exists default. split; [exact Hd|reflexivity].
    + rewrite Hg. destruct b; reflexivity.
Qed.

Lemma backend_lines_and_guards_witness :
  Forall2 (fun kv line =>
             exists default,
               default_text (snd kv) = Ok default /\
               line = input_line (fst kv) default)
    [ ("path", JObj [ ("type", JStr "string") ]);
      ("depth", JObj [ ("type", JStr "integer"); ("default", JInt 1) ]) ]
    [ input_line "path" "''''"; input_line "depth" "1" ] /\
  [ validation_block "path" "'path': path, 'depth': depth" "Path" ] =
  List.map (fun kv => validation_block (fst kv) "'path': path, 'depth': depth"
                        (_format_name (fst kv)))
    (List.filter (fun kv => listed (JArr [JStr "path"; JStr "limit"]) (fst kv))
       [ ("path", JObj [ ("type", JStr "string") ]);
         ("depth", JObj [ ("type", JStr "integer"); ("default", JInt 1) ]) ]).
Proof.
  apply (backend_lines_and_guards (JArr [JStr "path"; JStr "limit"])).
  vm_compute. reflexivity.
Defined.
